(** * Check-in token lifecycle of the meeting attendance backend

    A shallow embedding of [sheets_manager.py] (class [SheetsManager]) and of
    the routes of [main.py], followed by the properties of the token
    lifecycle ([generate_qr_token], [check_in]), of the accounts
    ([participant_signup], [participant_login], [admin_login]) and of the
    initialisation ([initialize_db]).

    Modelling choices.
    - The Google spreadsheet is a finite map from worksheet titles to
      worksheets; a worksheet is the list of its rows, a row the list of its
      cell texts, and row 1 (index 0) holds the headers.  [gspread] is an
      external library: its calls are the constructors of [gspread] below
      (find the first matching cell of a column, read a row, delete a row,
      append a row, read all records).  Cell texts are returned as stored:
      the conversion of numeric-looking texts to numbers that
      [get_all_records] applies is not modelled (the identifiers of this
      system, [P001], [A101], are not numeric, nor are e-mail addresses and
      password hashes; phone numbers are, and the properties below assert
      nothing about a registered phone number being recognised).
    - Every [gspread] call is a remote call that can fail.  The manager state
      carries a tape of booleans, one consumed per call; [true] makes the call
      raise [APIError].  An empty tape means that no call fails.
    - A method body is a tree of such calls ([prog]); [run] executes it on
      the manager state, [try]/[except] is [try_except], and [step] makes one
      call at a time for requests served by concurrent worker threads.  The
      initialisation, which makes calls of its own on the spreadsheet, is
      written in state-passing style ([method]).
    - [time.time()] is a rational number of seconds (the rounding of binary
      floats is left out); the readings of the clock and the values drawn by
      [uuid.uuid4()] and [bcrypt.hashpw] are inputs of the routes, and so are
      the library functions [bcrypt.checkpw] and [jwt.encode] and the text of
      a caught exception.
    - A text is the sequence of its characters, so that [len] is the length
      of the sequence.
    - The construction of the manager ([__init__], the credentials) is
      reduced to its outcome, the flag [is_connected]; [print] is not
      modelled.  [decode_jwt_token], which no route calls, is left out: its
      outcomes are the exceptions of the library PyJWT. *)

From Stdlib Require Import ZArith QArith Qround Lqa Ascii String DecimalString DecimalZ DecimalPos.
From stdpp Require Import gmap strings list fin_maps.

Open Scope string_scope.
Open Scope list_scope.
Open Scope Z_scope.

(** ** Python values and dictionaries *)

Inductive pyval :=
| PNone
| PStr (s : string)
| PInt (z : Z).

#[global] Instance pyval_eq_dec : EqDecision pyval.
Proof. solve_decision. Defined.

(** [dict.get(key)] with the default [None], and [dict.get(key, default)]. *)
Definition dict_get (d : gmap string pyval) (key : string) : pyval :=
  default PNone (d !! key).

Definition dict_get_default (d : gmap string pyval) (key : string) (dflt : pyval) : pyval :=
  default dflt (d !! key).

(** [dict(zip(headers, row_values))]: a later duplicate header wins. *)
Definition dict_zip (headers row_values : list string) : gmap string pyval :=
  list_to_map (reverse (zip headers (PStr <$> row_values))).

(** Truth value of a dictionary or [None] in [if not x]. *)
Definition truthy (x : option (gmap string pyval)) : bool :=
  match x with
  | None => false
  | Some d => negb (bool_decide (d = ∅))
  end.

(** [str(n)] for an integer, which is also how a number cell reads back. *)
Definition str_of_int (z : Z) : string := NilZero.string_of_int (Z.to_int z).

(** [int(s)] on a decimal text, with or without a minus sign; [None] stands
    for [ValueError].  (Python also accepts blanks around the digits, a plus
    sign and underscores between digits; the cells [add_qr_token] writes have
    none of them.) *)
Definition int_of_str (s : string) : option Z :=
  Z.of_int <$> NilZero.int_of_string s.

(** [int(x)] for a float [x]: truncation towards zero. *)
Definition int_of_float (x : Q) : Z := Z.quot (Qnum x) (Zpos (Qden x)).

(** The text a value leaves in a cell. *)
Definition cell_of (v : pyval) : string :=
  match v with
  | PNone => ""
  | PStr s => s
  | PInt z => str_of_int z
  end.

(** ** Exceptions and the manager state *)

Inductive exn :=
| HTTPException (status_code : Z) (detail : string)
| APIError
| CellNotFound
| WorksheetNotFound
| Exception (msg : string)
| ValueError
| TypeError
| KeyError (key : string)
| AttributeError.

Inductive result (A : Type) :=
| Return (a : A)
| Raise (e : exn).
Arguments Return {A} a.
Arguments Raise {A} e.

Abbreviation worksheet := (list (list string)).

Record SheetsManager := {
  is_connected : bool;
  spreadsheet : gmap string worksheet;
  faults : list bool
}.

Definition set_spreadsheet (s : gmap string worksheet) (self : SheetsManager) : SheetsManager :=
  {| is_connected := is_connected self; spreadsheet := s; faults := faults self |}.

Definition set_faults (fs : list bool) (self : SheetsManager) : SheetsManager :=
  {| is_connected := is_connected self; spreadsheet := spreadsheet self; faults := fs |}.

(** ** Programs over the calls of gspread

    The calls a method makes on the spreadsheet, each with the type of its
    answer, and the read of the attribute [self.is_connected].  The handle
    of a worksheet is its title. *)
Inductive gspread : Type -> Type :=
| IsConnected : gspread bool
| Worksheet (title : string) : gspread string
| Find (sheet : string) (query : pyval) (in_column : nat) : gspread nat
| RowValues (sheet : string) (row : nat) : gspread (list string)
| DeleteRows (sheet : string) (row : nat) : gspread unit
| AppendRow (sheet : string) (data : list pyval) : gspread unit
| GetAllRecords (sheet : string) : gspread (list (gmap string pyval)).

(** A method body: it returns, raises, or makes a call and goes on with the
    answer or the exception of that call. *)
Inductive prog (A : Type) : Type :=
| Ret (a : A)
| Throw (e : exn)
| Vis {B : Type} (call : gspread B) (k : result B -> prog A).
Arguments Ret {A} a.
Arguments Throw {A} e.
Arguments Vis {A B} call k.

Definition of_result {A} (r : result A) : prog A :=
  match r with
  | Return a => Ret a
  | Raise e => Throw e
  end.

Definition call {B} (c : gspread B) : prog B := Vis c of_result.

Fixpoint bind {A B} (p : prog A) (f : A -> prog B) : prog B :=
  match p with
  | Ret a => f a
  | Throw e => Throw e
  | Vis c k => Vis c (fun r => bind (k r) f)
  end.

(** [try: p except Exception as e: handler e]. *)
Fixpoint try_except {A} (p : prog A) (handler : exn -> prog A) : prog A :=
  match p with
  | Ret a => Ret a
  | Throw e => handler e
  | Vis c k => Vis c (fun r => try_except (k r) handler)
  end.

Notation "'let*' x ':=' c 'in' k" := (bind c (fun x => k))
  (at level 10, x name, c at level 100, k at level 200).

(** *** What the calls do *)

(** One remote call: the head of the tape decides whether it fails. *)
Definition remote {A} (f : SheetsManager -> result A * SheetsManager)
    (self : SheetsManager) : result A * SheetsManager :=
  match faults self with
  | true :: fs => (Raise APIError, set_faults fs self)
  | false :: fs => f (set_faults fs self)
  | [] => f self
  end.

Definition with_sheet {A} (sheet : string)
    (f : worksheet -> SheetsManager -> result A * SheetsManager)
    (self : SheetsManager) : result A * SheetsManager :=
  match spreadsheet self !! sheet with
  | Some rows => f rows self
  | None => (Raise APIError, self)
  end.

(** [sheet.get_all_records()]: one dictionary per row below the headers. *)
Definition records_of (rows : worksheet) : list (gmap string pyval) :=
  match rows with
  | [] => []
  | headers :: data => dict_zip headers <$> data
  end.

(** The rows of a worksheet whose cell in column [c] (from 1) is [q]. *)
Definition cell_is (c : nat) (q : string) (row : list string) : Prop :=
  row !! pred c = Some q.

#[global] Instance cell_is_dec c q row : Decision (cell_is c q row).
Proof. unfold cell_is. apply _. Defined.

(** - [spreadsheet.worksheet(title)] raises [WorksheetNotFound] for an
      unknown title;
    - [sheet.find(query, in_column=c)] gives the row number (from 1) of the
      first cell of column [c] whose text is [query], every row being
      searched, the header row too, and raises [CellNotFound] when there is
      none; a query that is not a string is used as a compiled pattern and
      fails;
    - [sheet.row_values(r)] is empty for a row below the data;
    - [sheet.delete_rows(r)] moves the rows below up by one, and changes
      nothing when row [r] is below the data (an empty row of the grid);
    - [sheet.append_row(data)] adds a row after the last one. *)
Definition handle {B} (c : gspread B) : SheetsManager -> result B * SheetsManager :=
  match c in gspread B return SheetsManager -> result B * SheetsManager with
  | IsConnected => fun self => (Return (is_connected self), self)
  | Worksheet title =>
      remote (fun self =>
        match spreadsheet self !! title with
        | Some _ => (Return title, self)
        | None => (Raise WorksheetNotFound, self)
        end)
  | Find sheet query in_column =>
      remote (with_sheet sheet (fun rows self =>
        match query with
        | PStr q =>
            match list_find (cell_is in_column q) rows with
            | Some (i, _) => (Return (S i), self)
            | None => (Raise CellNotFound, self)
            end
        | _ => (Raise AttributeError, self)
        end))
  | RowValues sheet r =>
      remote (with_sheet sheet (fun rows self => (Return (default [] (rows !! pred r)), self)))
  | DeleteRows sheet r =>
      remote (with_sheet sheet (fun rows self =>
        (Return tt, set_spreadsheet (<[sheet := delete (pred r) rows]> (spreadsheet self)) self)))
  | AppendRow sheet data =>
      remote (with_sheet sheet (fun rows self =>
        (Return tt, set_spreadsheet (<[sheet := rows ++ [cell_of <$> data]]> (spreadsheet self)) self)))
  | GetAllRecords sheet =>
      remote (with_sheet sheet (fun rows self => (Return (records_of rows), self)))
  end.

(** Running a method to its end, one call after the other. *)
Fixpoint run {A} (p : prog A) (self : SheetsManager) : result A * SheetsManager :=
  match p with
  | Ret a => (Return a, self)
  | Throw e => (Raise e, self)
  | Vis c k => let '(r, self') := handle c self in run (k r) self'
  end.

(** The remote calls of a run, in the order in which they are made. *)
Inductive remote_call :=
| Cworksheet (title : string)
| Cfind (sheet : string)
| Crow_values (sheet : string)
| Cdelete_rows (sheet : string)
| Cappend_row (sheet : string)
| Cget_all_records (sheet : string).

Definition label {B} (c : gspread B) : list remote_call :=
  match c with
  | IsConnected => []
  | Worksheet title => [Cworksheet title]
  | Find sheet _ _ => [Cfind sheet]
  | RowValues sheet _ => [Crow_values sheet]
  | DeleteRows sheet _ => [Cdelete_rows sheet]
  | AppendRow sheet _ => [Cappend_row sheet]
  | GetAllRecords sheet => [Cget_all_records sheet]
  end.

Fixpoint calls {A} (p : prog A) (self : SheetsManager) : list remote_call :=
  match p with
  | Ret _ | Throw _ => []
  | Vis c k => let '(r, self') := handle c self in label c ++ calls (k r) self'
  end.

(** One step of a request handled by a worker thread: the next call of its
    method is made on the shared manager. *)
Definition step {A} (p : prog A) (self : SheetsManager) : prog A * SheetsManager :=
  match p with
  | Vis c k => let '(r, self') := handle c self in (k r, self')
  | _ => (p, self)
  end.

(** Requests in flight, advanced in the order of a schedule: each entry of
    the schedule names the thread that makes its next call. *)
Fixpoint interleave {A} (schedule : list nat) (threads : list (prog A))
    (self : SheetsManager) : list (prog A) * SheetsManager :=
  match schedule with
  | [] => (threads, self)
  | i :: schedule' =>
      match threads !! i with
      | Some p =>
          let '(p', self') := step p self in
          interleave schedule' (<[i := p']> threads) self'
      | None => interleave schedule' threads self
      end
  end.

(** ** sheets_manager.py: WORKSHEET_DEFINITIONS and class SheetsManager *)

Definition ATTENDANCE_LOG_HEADERS : list string :=
  ["id"; "participant_id"; "agenda_item_id"; "checkin_time"; "checkin_method";
   "scanner_device_id"; "is_valid"].

Definition QR_TOKENS_HEADERS : list string :=
  ["token_uuid"; "participant_id"; "agenda_item_id"; "device_id"; "expires_at"].

Definition get_worksheet (title : string) : prog string :=
  let* connected := call IsConnected in
  if negb connected then Throw (Exception "Google Sheets 服務未連接。")
  else
    try_except (call (Worksheet title))
      (fun e => match e with
                | WorksheetNotFound => Throw (Exception ("找不到工作表: " +:+ title))
                | _ => Throw e
                end).

Definition get_all_records (sheet_name : string) : prog (list (gmap string pyval)) :=
  let* connected := call IsConnected in
  if negb connected then Ret []
  else
    try_except
      (let* sheet := get_worksheet sheet_name in
       call (GetAllRecords sheet))
      (fun _ => Ret []).

Definition find_record_by_id (sheet_name : string) (record_id : pyval) (id_column : nat)
  : prog (option (gmap string pyval)) :=
  let* connected := call IsConnected in
  if negb connected then Ret None
  else
    try_except
      (let* sheet := get_worksheet sheet_name in
       let* cell_row := call (Find sheet record_id id_column) in
       let* row_values := call (RowValues sheet cell_row) in
       let* headers := call (RowValues sheet 1) in
       Ret (Some (dict_zip headers row_values)))
      (fun _ => Ret None).

(** [append_row] returns [True] when the service is not connected (the write
    is only simulated) and [None] after a real write; a failed write is
    raised again. *)
Definition append_row (sheet_name : string) (data : list pyval) : prog (option bool) :=
  let* connected := call IsConnected in
  if negb connected then Ret (Some true)
  else
    try_except
      (let* sheet := get_worksheet sheet_name in
       let* _ := call (AppendRow sheet data) in
       Ret None)
      (fun e => Throw e).

(** [token_data[key]]. *)
Definition dict_item (d : gmap string pyval) (key : string) : prog pyval :=
  match d !! key with
  | Some v => Ret v
  | None => Throw (KeyError key)
  end.

Definition add_qr_token (token_data : gmap string pyval) : prog bool :=
  let* connected := call IsConnected in
  if negb connected then Ret true
  else
    try_except
      (let* sheet := get_worksheet "Qr_Tokens" in
       let* token_uuid := dict_item token_data "token_uuid" in
       let* participant_id := dict_item token_data "participant_id" in
       let* agenda_item_id := dict_item token_data "agenda_item_id" in
       let* device_id := dict_item token_data "device_id" in
       let* expires_at := dict_item token_data "expires_at" in
       let data := [token_uuid; participant_id; agenda_item_id; device_id; expires_at] in
       let* _ := call (AppendRow sheet data) in
       Ret true)
      (fun e => Throw e).

(** [int(x)] on a value. *)
Definition py_int (v : pyval) : prog Z :=
  match v with
  | PInt z => Ret z
  | PStr s => match int_of_str s with
              | Some z => Ret z
              | None => Throw ValueError
              end
  | PNone => Throw TypeError
  end.

Definition consume_qr_token (qr_uuid_token : string) : prog (option (gmap string pyval)) :=
  let* connected := call IsConnected in
  if negb connected then Ret None
  else
    try_except
      (let* sheet := get_worksheet "Qr_Tokens" in
       let* cell_row := call (Find sheet (PStr qr_uuid_token) 1) in
       let* row_values := call (RowValues sheet cell_row) in
       let* headers := call (RowValues sheet 1) in
       let token_data := dict_zip headers row_values in
       let* _ := call (DeleteRows sheet cell_row) in
       let* expires_at := py_int (dict_get_default token_data "expires_at" (PInt 0)) in
       Ret (Some (<["expires_at" := PInt expires_at]> token_data)))
      (fun _ => Ret None).

(** ** main.py: configuration, request models, clock *)

Definition QR_CODE_EXP_SECONDS : Z := 15.

Module TokenRequest.
Record t := {
  participant_id : string;
  agenda_item_id : string;
  device_id : string
}.
End TokenRequest.

Module CheckInRequest.
Record t := {
  qr_code_token : string;
  agenda_item_id : string;
  scanner_device_id : string
}.
End CheckInRequest.

Module TokenResponse.
Record t := {
  status : string;
  qr_code_token : string;
  expires_in : Z
}.
End TokenResponse.

Module CheckInResponse.
Record t := {
  status : string;
  participant_name : pyval;
  participant_id : pyval;
  checkin_time : string;
  message : string
}.
End CheckInResponse.

(** A reading of [datetime.datetime.now(...)]. *)
Record datetime := {
  year : Z;
  month : Z;
  day : Z;
  hour : Z;
  minute : Z;
  second : Z;
  microsecond : Z
}.

Definition digit (n : Z) : ascii := ascii_of_nat (Z.to_nat (48 + n mod 10)).

Definition zfill2 (n : Z) : string :=
  String (digit (n / 10)) (String (digit n) "").

Definition zfill4 (n : Z) : string :=
  String (digit (n / 1000)) (String (digit (n / 100)) (zfill2 n)).

Definition zfill6 (n : Z) : string :=
  String (digit (n / 100000)) (String (digit (n / 10000)) (zfill4 n)).

(** [d.isoformat()] for a reading of [datetime.now(datetime.timezone.utc)]:
    the fraction is printed only when it is not zero, the offset always. *)
Definition isoformat (d : datetime) : string :=
  zfill4 (year d) +:+ "-" +:+ zfill2 (month d) +:+ "-" +:+ zfill2 (day d) +:+ "T" +:+
  zfill2 (hour d) +:+ ":" +:+ zfill2 (minute d) +:+ ":" +:+ zfill2 (second d) +:+
  (if Z.eqb (microsecond d) 0 then "" else "." +:+ zfill6 (microsecond d)) +:+
  "+00:00".

(** [d.strftime("%Y-%m-%d %H:%M:%S")]. *)
Definition strftime (d : datetime) : string :=
  zfill4 (year d) +:+ "-" +:+ zfill2 (month d) +:+ "-" +:+ zfill2 (day d) +:+ " " +:+
  zfill2 (hour d) +:+ ":" +:+ zfill2 (minute d) +:+ ":" +:+ zfill2 (second d).

(** The failures the routes raise, named after the outcome they report. *)
Definition ServiceUnavailable : exn :=
  HTTPException 503 "服務不可用：Google Sheets 後端連線失敗或初始化錯誤".
Definition ParticipantNotFound : exn := HTTPException 404 "參與者 ID 無效".
Definition AgendaNotFound : exn := HTTPException 404 "議程 ID 無效".
Definition InvalidOrUsedToken : exn := HTTPException 400 "報到失敗：QR Code 無效或已使用。".
Definition Expired : exn := HTTPException 400 "報到失敗：QR Code 已過期。".
Definition AgendaMismatch : exn := HTTPException 400 "報到失敗：議程 ID 不匹配。".
Definition DuplicateCheckIn : exn := HTTPException 400 "報到失敗：該學員已報到過。".

(** A failure of the store that reaches the caller of a route. *)
Definition StorageError (e : exn) : bool :=
  match e with
  | APIError | Exception _ => true
  | _ => false
  end.

(** ** main.py: the routes *)

(** The dependency [Depends(get_sheets_manager)] of every route. *)
Definition get_sheets_manager : prog unit :=
  let* connected := call IsConnected in
  if negb connected then Throw ServiceUnavailable else Ret tt.

(** [generate_qr_token]; [uuid4] is the value of [str(uuid.uuid4())] and
    [time_time] the reading of [time.time()]. *)
Definition generate_qr_token (request : TokenRequest.t) (uuid4 : string) (time_time : Q)
  : prog TokenResponse.t :=
  let* participant :=
    find_record_by_id "Participants" (PStr (TokenRequest.participant_id request)) 1 in
  if negb (truthy participant) then Throw ParticipantNotFound
  else
    let* agenda_item :=
      find_record_by_id "Agenda_Items" (PStr (TokenRequest.agenda_item_id request)) 1 in
    if negb (truthy agenda_item) then Throw AgendaNotFound
    else
      let short_uuid_token := uuid4 in
      let expires_at := int_of_float (time_time + inject_Z QR_CODE_EXP_SECONDS) in
      let token_payload : gmap string pyval :=
        <["token_uuid" := PStr short_uuid_token]>
        (<["participant_id" := PStr (TokenRequest.participant_id request)]>
        (<["agenda_item_id" := PStr (TokenRequest.agenda_item_id request)]>
        (<["device_id" := PStr (TokenRequest.device_id request)]>
        (<["expires_at" := PInt expires_at]> ∅)))) in
      let* _ := add_qr_token token_payload in
      Ret {| TokenResponse.status := "success";
             TokenResponse.qr_code_token := short_uuid_token;
             TokenResponse.expires_in := QR_CODE_EXP_SECONDS |}.

(** [time.time() > expires_at]. *)
Definition time_after (time_time : Q) (expires_at : Z) : bool :=
  negb (Qle_bool time_time (inject_Z expires_at)).

(** The test of step 4b: some record of the log carries the participant and
    the agenda item of the token. *)
Definition already_checked_in (attendance_logs : list (gmap string pyval))
    (p_id a_id_token : pyval) : bool :=
  existsb (fun log =>
             bool_decide (dict_get log "participant_id" = p_id) &&
             bool_decide (dict_get log "agenda_item_id" = a_id_token))
          attendance_logs.

(** [check_in].  [time_time] is the reading of [time.time()] in step 2,
    [utc_now] that of [datetime.now(timezone.utc)] and [record_id] the value
    of [str(uuid.uuid4())] in step 5, [local_now] the reading of
    [datetime.now()] in the answer.  [participant_data.get] on [None] raises
    [AttributeError]. *)
Definition check_in (request : CheckInRequest.t)
    (time_time : Q) (utc_now : datetime) (record_id : string) (local_now : datetime)
  : prog CheckInResponse.t :=
  let qr_uuid_token := CheckInRequest.qr_code_token request in
  let* token_data := consume_qr_token qr_uuid_token in
  if negb (truthy token_data) then Throw InvalidOrUsedToken
  else
    match token_data with
    | None => Throw InvalidOrUsedToken
    | Some token_data =>
      let* expires_at := dict_item token_data "expires_at" in
      match expires_at with
      | PInt expires_at =>
        if time_after time_time expires_at then Throw Expired
        else
          let p_id := dict_get token_data "participant_id" in
          let a_id_token := dict_get token_data "agenda_item_id" in
          if negb (bool_decide (a_id_token = PStr (CheckInRequest.agenda_item_id request)))
          then Throw AgendaMismatch
          else
            let* attendance_logs := get_all_records "Attendance_Log" in
            if already_checked_in attendance_logs p_id a_id_token
            then Throw DuplicateCheckIn
            else
              let checkin_time_utc := isoformat utc_now in
              let log_data :=
                [PStr record_id; p_id; PStr (CheckInRequest.agenda_item_id request);
                 PStr checkin_time_utc; PStr "QR_CODE";
                 PStr (CheckInRequest.scanner_device_id request); PStr "TRUE"] in
              let* _ := append_row "Attendance_Log" log_data in
              let* participant_data := find_record_by_id "Participants" p_id 1 in
              match participant_data with
              | None => Throw AttributeError
              | Some participant_data =>
                Ret {| CheckInResponse.status := "success";
                       CheckInResponse.participant_name :=
                         dict_get_default participant_data "name" (PStr "未知學員");
                       CheckInResponse.participant_id := p_id;
                       CheckInResponse.checkin_time := strftime local_now;
                       CheckInResponse.message := "報到成功！" |}
              end
      | _ => Throw TypeError
      end
    end.

(** The routes as FastAPI runs them: the dependency first, then the body. *)
Definition generate_qr_token_route (request : TokenRequest.t) (uuid4 : string) (time_time : Q)
  : prog TokenResponse.t :=
  let* _ := get_sheets_manager in
  generate_qr_token request uuid4 time_time.

Definition check_in_route (request : CheckInRequest.t)
    (time_time : Q) (utc_now : datetime) (record_id : string) (local_now : datetime)
  : prog CheckInResponse.t :=
  let* _ := get_sheets_manager in
  check_in request time_time utc_now record_id local_now.

(** ** A sample store *)

Definition PARTICIPANTS_HEADERS : list string :=
  ["id"; "name"; "email"; "phone_number"; "organization"; "login_hash"].
Definition AGENDA_ITEMS_HEADERS : list string :=
  ["id"; "event_id"; "agenda_title"; "start_time"; "end_time"; "location";
   "checkin_window_minutes"].

Definition sample_sheets (tokens attendance : worksheet) : gmap string worksheet :=
  <["Participants" := [PARTICIPANTS_HEADERS;
       ["P001"; "Wang"; "ming@test.com"; "0910123456"; "Tech"; "hash"];
       ["P002"; "Chen"; "hua@test.com"; "0920654321"; "Med"; "hash"]]]>
  (<["Agenda_Items" := [AGENDA_ITEMS_HEADERS;
       ["A101"; "E001"; "Opening"; "2026-01-10T09:00:00+08:00"; "2026-01-10T10:30:00+08:00"; "Hall"; "30"];
       ["A102"; "E001"; "Panel"; "2026-01-10T11:00:00+08:00"; "2026-01-10T12:00:00+08:00"; "A203"; "15"]]]>
  (<["Qr_Tokens" := QR_TOKENS_HEADERS :: tokens]>
  (<["Attendance_Log" := ATTENDANCE_LOG_HEADERS :: attendance]> ∅))).

Definition sample (tokens attendance : worksheet) (fs : list bool) : SheetsManager :=
  {| is_connected := true; spreadsheet := sample_sheets tokens attendance; faults := fs |}.

Definition dt0 : datetime :=
  {| year := 2026; month := 1; day := 10; hour := 1; minute := 5; second := 0; microsecond := 250 |}.
Definition dt1 : datetime :=
  {| year := 2026; month := 1; day := 10; hour := 9; minute := 5; second := 0; microsecond := 900 |}.

Definition req_P001_A101 : TokenRequest.t :=
  {| TokenRequest.participant_id := "P001"; TokenRequest.agenda_item_id := "A101";
     TokenRequest.device_id := "deviceA" |}.

Definition scan (token agenda : string) : CheckInRequest.t :=
  {| CheckInRequest.qr_code_token := token; CheckInRequest.agenda_item_id := agenda;
     CheckInRequest.scanner_device_id := "scanner1" |}.

(** ** sheets_manager.py: the administrators and the initialisation *)

Definition ADMINS_HEADERS : list string :=
  ["id"; "username"; "password_hash"; "role"; "last_login"].
Definition EVENTS_HEADERS : list string :=
  ["event_id"; "event_title"; "event_description"; "max_capacity"; "is_active"].
Definition REGISTRATION_HEADERS : list string :=
  ["id"; "participant_id"; "event_id"; "registration_date"; "is_paid"].

(** The worksheets and their headers, in the order of the dictionary. *)
Definition WORKSHEET_DEFINITIONS : list (string * list string) :=
  [("Admins", ADMINS_HEADERS);
   ("Participants", PARTICIPANTS_HEADERS);
   ("Events", EVENTS_HEADERS);
   ("Agenda_Items", AGENDA_ITEMS_HEADERS);
   ("Registration", REGISTRATION_HEADERS);
   ("Attendance_Log", ATTENDANCE_LOG_HEADERS);
   ("Qr_Tokens", QR_TOKENS_HEADERS)].

(** [find_admin_by_username]: the user name is searched in column 2; a
    manager that is not connected answers with a built-in administrator. *)
Definition find_admin_by_username (username : string) : prog (option (gmap string pyval)) :=
  let* connected := call IsConnected in
  if negb connected then
    if String.eqb username "admin" then
      let hashed_pw := "$2b$12$W91R.1w3s.iLp2H5bY0VRe.s6N6Z2S9n.N0nC5sE2s0V/u8p5P9N." in
      Ret (Some (<["id" := PStr "1"]>
                (<["username" := PStr "admin"]>
                (<["password_hash" := PStr hashed_pw]>
                (<["role" := PStr "SUPER_ADMIN"]>
                (<["last_login" := PStr ""]> ∅))))))
    else Ret None
  else
    try_except
      (let* sheet := get_worksheet "Admins" in
       let* cell_row := call (Find sheet (PStr username) 2) in
       let* row_values := call (RowValues sheet cell_row) in
       let* headers := call (RowValues sheet 1) in
       Ret (Some (dict_zip headers row_values)))
      (fun _ => Ret None).

(** *** initialize_system

    The calls that only the initialisation makes, in state-passing style:
    a method takes the manager and gives its answer and the manager after
    it.
    - [spreadsheet.add_worksheet(title, rows, cols)] adds an empty grid;
    - [ws.clear()] empties every cell;
    - [ws.update([values], range_name='A1')] writes one row of values from
      cell A1 on and leaves the cells to the right of them;
    - [ws.append_rows(rows)] adds the rows after the last one. *)
Definition method (A : Type) : Type := SheetsManager -> result A * SheetsManager.

Definition and_then {A B} (m : method A) (f : A -> method B) : method B :=
  fun self =>
    match m self with
    | (Return a, self') => f a self'
    | (Raise e, self') => (Raise e, self')
    end.

Notation "'let!' x ':=' c 'in' k" := (and_then c (fun x => k))
  (at level 10, x name, c at level 100, k at level 200).

Definition spreadsheet_worksheet (title : string) : method string :=
  handle (Worksheet title).

Definition add_worksheet (title : string) : method string :=
  remote (fun self =>
    (Return title, set_spreadsheet (<[title := []]> (spreadsheet self)) self)).

Definition clear (sheet : string) : method unit :=
  remote (with_sheet sheet (fun rows self =>
    (Return tt, set_spreadsheet (<[sheet := []]> (spreadsheet self)) self))).

Definition update_A1 (values : list string) (rows : worksheet) : worksheet :=
  match rows with
  | [] => [values]
  | row :: below => (values ++ drop (length values) row) :: below
  end.

Definition update (sheet : string) (values : list string) : method unit :=
  remote (with_sheet sheet (fun rows self =>
    (Return tt, set_spreadsheet (<[sheet := update_A1 values rows]> (spreadsheet self)) self))).

Definition append_rows (sheet : string) (data : list (list string)) : method unit :=
  remote (with_sheet sheet (fun rows self =>
    (Return tt, set_spreadsheet (<[sheet := rows ++ data]> (spreadsheet self)) self))).

(** The loop of step 1 over the worksheets that are left. *)
Fixpoint initialize_sheets (definitions : list (string * list string)) (clear_data : bool)
    (initialized_sheets : list string) : method (list string) :=
  match definitions with
  | [] => fun self => (Return initialized_sheets, self)
  | (title, headers) :: definitions' =>
      let! ws :=
        (fun self =>
           match spreadsheet_worksheet title self with
           | (Raise WorksheetNotFound, self') => add_worksheet title self'
           | answer => answer
           end) in
      let! _ := (if clear_data then clear ws else fun self => (Return tt, self)) in
      let! _ := update ws headers in
      initialize_sheets definitions' clear_data (initialized_sheets ++ [title])
  end.

(** The rows written in step 2; [hashed_password] is the value of
    [bcrypt.hashpw] for the initial password, [now_text] the reading of
    [time.strftime("%Y-%m-%d %H:%M:%S")], [today1] and [today2] those of
    [time.strftime("%Y-%m-%d")]. *)
Definition admin_data (hashed_password now_text : string) : worksheet :=
  [["1"; "admin"; hashed_password; "SUPER_ADMIN"; now_text];
   ["2"; "staff_01"; hashed_password; "CHECKIN_STAFF"; ""]].

Definition participant_data (hashed_password : string) : worksheet :=
  [["P001"; "王小明"; "ming@test.com"; "0910123456"; "科技學院"; hashed_password];
   ["P002"; "陳大華"; "hua@test.com"; "0920654321"; "醫學院"; hashed_password]].

Definition events_data : worksheet :=
  [["E001"; "2026 年度學術研討會"; "學術界年度盛事"; "300"; "TRUE"]].

Definition agenda_data : worksheet :=
  [["A101"; "E001"; "開幕式與專題演講"; "2026-01-10T09:00:00+08:00";
    "2026-01-10T10:30:00+08:00"; "國際廳"; "30"];
   ["A102"; "E001"; "分組討論：AI應用"; "2026-01-10T11:00:00+08:00";
    "2026-01-10T12:00:00+08:00"; "A203會議室"; "15"]].

Definition registration_data (today1 today2 : string) : worksheet :=
  [["1"; "P001"; "E001"; today1; "TRUE"];
   ["2"; "P002"; "E001"; today2; "TRUE"]].

Definition initialize_system (clear_data : bool)
    (hashed_password now_text today1 today2 : string) : method (list string) :=
  fun self =>
    if negb (is_connected self)
    then (Raise (Exception "Google Sheets 服務未連接，無法初始化。請檢查憑證。"), self)
    else
      (let! initialized_sheets := initialize_sheets WORKSHEET_DEFINITIONS clear_data [] in
       let! admins_ws := spreadsheet_worksheet "Admins" in
       let! _ := append_rows admins_ws (admin_data hashed_password now_text) in
       let! participants_ws := spreadsheet_worksheet "Participants" in
       let! _ := append_rows participants_ws (participant_data hashed_password) in
       let! events_ws := spreadsheet_worksheet "Events" in
       let! _ := append_rows events_ws events_data in
       let! agenda_ws := spreadsheet_worksheet "Agenda_Items" in
       let! _ := append_rows agenda_ws agenda_data in
       let! registration_ws := spreadsheet_worksheet "Registration" in
       let! _ := append_rows registration_ws (registration_data today1 today2) in
       fun self => (Return initialized_sheets, self)) self.

(** ** main.py: sessions and accounts *)

Definition JWT_SECRET_KEY : string := "your_strong_and_secret_jwt_key_32bytes".
Definition JWT_ALGORITHM : string := "HS256".
Definition INIT_MASTER_KEY : string := "your_super_secret_init_key".
Definition ADMIN_SESSION_EXP_MINUTES : Z := 60 * 24.
Definition PARTICIPANT_SESSION_EXP_DAYS : Z := 7.

Module AdminLoginRequest.
Record t := {
  username : string;
  password : string
}.
End AdminLoginRequest.

Module InitializationRequest.
Record t := {
  secret_key : string;
  clear_data : bool
}.
End InitializationRequest.

Module ParticipantSignupRequest.
Record t := {
  name : string;
  email : string;
  phone_number : string;
  organization : option string;
  password : string
}.
End ParticipantSignupRequest.

Module ParticipantLoginRequest.
Record t := {
  email : string;
  password : string
}.
End ParticipantLoginRequest.

Module InitializationResponse.
Record t := {
  status : string;
  sheets_initialized : list string;
  message : string
}.
End InitializationResponse.

Module AdminLoginResponse.
Record t := {
  status : string;
  admin_name : pyval;
  role : pyval;
  session_token : string
}.
End AdminLoginResponse.

Module ParticipantSignupResponse.
Record t := {
  status : string;
  participant_id : string;
  message : string
}.
End ParticipantSignupResponse.

Module ParticipantLoginResponse.
Record t := {
  status : string;
  participant_id : pyval;
  name : pyval;
  session_token : string;
  message : string
}.
End ParticipantLoginResponse.

(** [timedelta(minutes=m).total_seconds()] and [timedelta(days=d).total_seconds()]. *)
Definition minutes_total_seconds (m : Z) : Q := inject_Z (m * 60).
Definition days_total_seconds (d : Z) : Q := inject_Z (d * 86400).

(** [create_jwt_token]; [jwt_encode] is [jwt.encode] of the library PyJWT,
    [expires_delta] the value of [expires_delta.total_seconds()] and
    [time_time] the reading of [time.time()]. *)
Definition create_jwt_token (jwt_encode : gmap string pyval -> string -> string -> string)
    (data : gmap string pyval) (expires_delta : Q) (time_time : Q) : string :=
  let to_encode := data in
  let to_encode := <["exp" := PInt (int_of_float (time_time + expires_delta))]> to_encode in
  let encoded_jwt := jwt_encode to_encode JWT_SECRET_KEY JWT_ALGORITHM in
  encoded_jwt.

(** Truth value of a value in [if not x]. *)
Definition py_bool (v : pyval) : bool :=
  match v with
  | PNone => false
  | PStr s => negb (String.eqb s "")
  | PInt z => negb (Z.eqb z 0)
  end.

(** [x.startswith(prefix)] and [x.encode('utf-8')], methods of a string. *)
Definition startswith (x : pyval) (prefix : string) : prog bool :=
  match x with
  | PStr s => Ret (String.prefix prefix s)
  | _ => Throw AttributeError
  end.

Definition encode (x : pyval) : prog string :=
  match x with
  | PStr s => Ret s
  | _ => Throw AttributeError
  end.

(** [x[1:]]. *)
Definition from_1 (x : pyval) : prog pyval :=
  match x with
  | PStr s => Ret (PStr (match s with
                         | EmptyString => EmptyString
                         | String _ s' => s'
                         end))
  | _ => Throw TypeError
  end.

(** [[int(p['id'][1:]) for p in participants if p.get('id', '').startswith('P')]]. *)
Fixpoint id_numbers (participants : list (gmap string pyval)) : prog (list Z) :=
  match participants with
  | [] => Ret []
  | p :: participants' =>
      let* selected := startswith (dict_get_default p "id" (PStr "")) "P" in
      if selected then
        let* id := dict_item p "id" in
        let* digits := from_1 id in
        let* n := py_int digits in
        let* ns := id_numbers participants' in
        Ret (n :: ns)
      else id_numbers participants'
  end.

(** [max(xs)]. *)
Definition py_max (xs : list Z) : prog Z :=
  match xs with
  | [] => Throw ValueError
  | x :: xs' => Ret (fold_left Z.max xs' x)
  end.

Fixpoint zeros (n : nat) : string :=
  match n with
  | O => ""
  | S n' => String "0" (zeros n')
  end.

(** [f"{n:03d}"]: at least three characters, the sign included, zeros after
    the sign. *)
Definition format_03d (n : Z) : string :=
  let digits := str_of_int (Z.abs n) in
  if n <? 0
  then "-" +:+ zeros (2 - String.length digits) +:+ digits
  else zeros (3 - String.length digits) +:+ digits.

Definition generate_new_participant_id : prog string :=
  let* participants := get_all_records "Participants" in
  if bool_decide (participants = []) then Ret "P001"
  else
    let* id_numbers := id_numbers participants in
    if bool_decide (id_numbers = []) then Ret "P001"
    else
      let* max_id_num := py_max id_numbers in
      let new_id_num := max_id_num + 1 in
      Ret ("P" +:+ format_03d new_id_num).

(** The failures of the account routes. *)
Definition WrongInitKey : exn := HTTPException 403 "初始化密鑰錯誤".
Definition InitializationFailed (text : string) : exn :=
  HTTPException 500 ("初始化失敗: " +:+ text).
Definition BadAdminCredentials : exn := HTTPException 401 "用戶名或密碼錯誤".
Definition MissingAdminHash : exn := HTTPException 500 "服務器配置錯誤：缺少密碼雜湊".
Definition PasswordTooShort : exn := HTTPException 400 "密碼長度至少需要 6 個字符".
Definition EmailRegistered : exn := HTTPException 400 "此 Email 已被註冊".
Definition PhoneRegistered : exn := HTTPException 400 "此手機號碼已被註冊".
Definition SignupWriteFailed (text : string) : exn :=
  HTTPException 500 ("註冊寫入資料庫失敗: " +:+ text).
Definition BadCredentials : exn := HTTPException 401 "Email 或密碼錯誤".
Definition MissingLoginHash : exn := HTTPException 500 "資料錯誤：參與者密碼雜湊遺失".

(** [initialize_db]; [str_e] gives the text [f"{e}"] of the exception
    caught. *)
Definition initialize_db (request : InitializationRequest.t)
    (hashed_password now_text today1 today2 : string) (str_e : exn -> string)
  : method InitializationResponse.t :=
  fun self =>
    if negb (String.eqb (InitializationRequest.secret_key request) INIT_MASTER_KEY)
    then (Raise WrongInitKey, self)
    else
      match initialize_system (InitializationRequest.clear_data request)
              hashed_password now_text today1 today2 self with
      | (Return initialized_sheets, self') =>
          (Return {| InitializationResponse.status := "success";
                     InitializationResponse.sheets_initialized := initialized_sheets;
                     InitializationResponse.message := "系統初始化成功，請勿再次運行。" |},
           self')
      | (Raise e, self') => (Raise (InitializationFailed (str_e e)), self')
      end.

(** [admin_login]; [checkpw] is [bcrypt.checkpw], which raises on a text
    that is no hash. *)
Definition admin_login (request : AdminLoginRequest.t)
    (checkpw : string -> string -> result bool)
    (jwt_encode : gmap string pyval -> string -> string -> string) (time_time : Q)
  : prog AdminLoginResponse.t :=
  let* admin_data := find_admin_by_username (AdminLoginRequest.username request) in
  if negb (truthy admin_data) then Throw BadAdminCredentials
  else
    match admin_data with
    | None => Throw BadAdminCredentials
    | Some admin_data =>
      let password_hash := dict_get admin_data "password_hash" in
      if negb (py_bool password_hash) then Throw MissingAdminHash
      else
        let* password_hash := encode password_hash in
        let* matches := of_result (checkpw (AdminLoginRequest.password request) password_hash) in
        if negb matches then Throw BadAdminCredentials
        else
          let token_payload : gmap string pyval :=
            <["sub" := dict_get admin_data "id"]>
            (<["user_role" := dict_get admin_data "role"]>
            (<["token_type" := PStr "session"]> ∅)) in
          let session_token :=
            create_jwt_token jwt_encode token_payload
              (minutes_total_seconds ADMIN_SESSION_EXP_MINUTES) time_time in
          Ret {| AdminLoginResponse.status := "success";
                 AdminLoginResponse.admin_name := dict_get admin_data "username";
                 AdminLoginResponse.role := dict_get admin_data "role";
                 AdminLoginResponse.session_token := session_token |}
    end.

(** The loop of [participant_signup] over the participants read. *)
Fixpoint reject_registered (participants : list (gmap string pyval))
    (request : ParticipantSignupRequest.t) : prog unit :=
  match participants with
  | [] => Ret tt
  | p :: participants' =>
      if bool_decide (dict_get p "email" = PStr (ParticipantSignupRequest.email request))
      then Throw EmailRegistered
      else if bool_decide (dict_get p "phone_number" =
                           PStr (ParticipantSignupRequest.phone_number request))
      then Throw PhoneRegistered
      else reject_registered participants' request
  end.

(** [participant_signup]; [hashed_password] is the value of [bcrypt.hashpw]
    for the password of the request. *)
Definition participant_signup (request : ParticipantSignupRequest.t)
    (hashed_password : string) (str_e : exn -> string)
  : prog ParticipantSignupResponse.t :=
  if (String.length (ParticipantSignupRequest.password request) <? 6)%nat
  then Throw PasswordTooShort
  else
    let* participants := get_all_records "Participants" in
    let* _ := reject_registered participants request in
    let* new_id := generate_new_participant_id in
    let new_row_data :=
      [PStr new_id;
       PStr (ParticipantSignupRequest.name request);
       PStr (ParticipantSignupRequest.email request);
       PStr (ParticipantSignupRequest.phone_number request);
       PStr (match ParticipantSignupRequest.organization request with
             | Some organization => organization
             | None => ""
             end);
       PStr hashed_password] in
    let* _ :=
      try_except (append_row "Participants" new_row_data)
        (fun e => Throw (SignupWriteFailed (str_e e))) in
    Ret {| ParticipantSignupResponse.status := "success";
           ParticipantSignupResponse.participant_id := new_id;
           ParticipantSignupResponse.message :=
             "註冊成功！您現在可以使用 Email 和密碼登入 App B。" |}.

(** [next((p for p in participants if p.get('email') == email), None)]. *)
Definition next_with_email (participants : list (gmap string pyval)) (email : string)
  : option (gmap string pyval) :=
  List.find (fun p => bool_decide (dict_get p "email" = PStr email)) participants.

Definition participant_login (request : ParticipantLoginRequest.t)
    (checkpw : string -> string -> result bool)
    (jwt_encode : gmap string pyval -> string -> string -> string) (time_time : Q)
  : prog ParticipantLoginResponse.t :=
  let* participants := get_all_records "Participants" in
  let participant_data :=
    next_with_email participants (ParticipantLoginRequest.email request) in
  if negb (truthy participant_data) then Throw BadCredentials
  else
    match participant_data with
    | None => Throw BadCredentials
    | Some participant_data =>
      let password_hash := dict_get participant_data "login_hash" in
      if negb (py_bool password_hash) then Throw MissingLoginHash
      else
        let* password_hash := encode password_hash in
        let* matches :=
          of_result (checkpw (ParticipantLoginRequest.password request) password_hash) in
        if negb matches then Throw BadCredentials
        else
          let token_payload : gmap string pyval :=
            <["sub" := dict_get participant_data "id"]>
            (<["user_role" := PStr "PARTICIPANT"]>
            (<["token_type" := PStr "session"]> ∅)) in
          let session_token :=
            create_jwt_token jwt_encode token_payload
              (days_total_seconds PARTICIPANT_SESSION_EXP_DAYS) time_time in
          Ret {| ParticipantLoginResponse.status := "success";
                 ParticipantLoginResponse.participant_id := dict_get participant_data "id";
                 ParticipantLoginResponse.name := dict_get participant_data "name";
                 ParticipantLoginResponse.session_token := session_token;
                 ParticipantLoginResponse.message := "登入成功，歡迎使用會議報到 App。" |}
    end.

(** The account routes as FastAPI runs them. *)
Definition initialize_db_route (request : InitializationRequest.t)
    (hashed_password now_text today1 today2 : string) (str_e : exn -> string)
  : method InitializationResponse.t :=
  let! _ := run get_sheets_manager in
  initialize_db request hashed_password now_text today1 today2 str_e.

Definition admin_login_route (request : AdminLoginRequest.t)
    (checkpw : string -> string -> result bool)
    (jwt_encode : gmap string pyval -> string -> string -> string) (time_time : Q)
  : prog AdminLoginResponse.t :=
  let* _ := get_sheets_manager in
  admin_login request checkpw jwt_encode time_time.

Definition participant_signup_route (request : ParticipantSignupRequest.t)
    (hashed_password : string) (str_e : exn -> string)
  : prog ParticipantSignupResponse.t :=
  let* _ := get_sheets_manager in
  participant_signup request hashed_password str_e.

Definition participant_login_route (request : ParticipantLoginRequest.t)
    (checkpw : string -> string -> result bool)
    (jwt_encode : gmap string pyval -> string -> string -> string) (time_time : Q)
  : prog ParticipantLoginResponse.t :=
  let* _ := get_sheets_manager in
  participant_login request checkpw jwt_encode time_time.

(** * The vocabulary of the properties *)

(** Case analysis along a run: every call is unfolded and split on the head
    of the tape and on the worksheet it finds. *)
Ltac by_cases :=
  intros;
  repeat (progress (simpl in *; unfold remote, with_sheet in *; simplify_eq/=)
          || case_match);
  rewrite ?negb_true_iff, ?negb_false_iff in *.

(** A run on a connected manager ([Hc]) whose tape is empty ([Hf]). *)
Ltac forward Hc Hf :=
  repeat (progress (simpl; unfold remote, with_sheet; rewrite ?Hc, ?Hf)).

(** The row [check_in] writes to the attendance log. *)
Definition log_data_of (request : CheckInRequest.t) (p_id : pyval)
    (utc_now : datetime) (record_id : string) : list pyval :=
  [PStr record_id; p_id; PStr (CheckInRequest.agenda_item_id request);
   PStr (isoformat utc_now); PStr "QR_CODE";
   PStr (CheckInRequest.scanner_device_id request); PStr "TRUE"].

(** The answer of a successful [check_in]. *)
Definition success_of (p_id : pyval) (participant_data : gmap string pyval)
    (local_now : datetime) : CheckInResponse.t :=
  {| CheckInResponse.status := "success";
     CheckInResponse.participant_name :=
       dict_get_default participant_data "name" (PStr "未知學員");
     CheckInResponse.participant_id := p_id;
     CheckInResponse.checkin_time := strftime local_now;
     CheckInResponse.message := "報到成功！" |}.

(** What a run of [check_in] went through, step by step, and the remote
    calls it made. *)
Definition check_in_steps (request : CheckInRequest.t)
    (time_time : Q) (utc_now : datetime) (record_id : string) (local_now : datetime)
    (self : SheetsManager) (r : result CheckInResponse.t) (self' : SheetsManager)
    (trace : list remote_call) : Prop :=
  let consume := consume_qr_token (CheckInRequest.qr_code_token request) in
  exists found s1,
    run consume self = (Return found, s1) /\
    match found with
    | None => r = Raise InvalidOrUsedToken /\ self' = s1 /\ trace = calls consume self
    | Some token_data =>
      exists expires_at, token_data !! "expires_at" = Some (PInt expires_at) /\
      let p_id := dict_get token_data "participant_id" in
      let a_id_token := dict_get token_data "agenda_item_id" in
      if time_after time_time expires_at
      then r = Raise Expired /\ self' = s1 /\ trace = calls consume self
      else if negb (bool_decide (a_id_token = PStr (CheckInRequest.agenda_item_id request)))
      then r = Raise AgendaMismatch /\ self' = s1 /\ trace = calls consume self
      else
        let scan := get_all_records "Attendance_Log" in
        exists logs s2,
          run scan s1 = (Return logs, s2) /\
          if already_checked_in logs p_id a_id_token
          then r = Raise DuplicateCheckIn /\ self' = s2 /\
               trace = calls consume self ++ calls scan s1
          else
            let append :=
              append_row "Attendance_Log" (log_data_of request p_id utc_now record_id) in
            exists appended s3,
              run append s2 = (appended, s3) /\
              match appended with
              | Raise e => r = Raise e /\ self' = s3 /\
                  trace = calls consume self ++ calls scan s1 ++ calls append s2
              | Return _ =>
                let lookup := find_record_by_id "Participants" p_id 1 in
                exists participant_data,
                  run lookup s3 = (Return participant_data, self') /\
                  trace = calls consume self ++ calls scan s1 ++ calls append s2 ++
                          calls lookup s3 /\
                  match participant_data with
                  | None => r = Raise AttributeError
                  | Some participant_data =>
                      r = Return (success_of p_id participant_data local_now)
                  end
              end
    end.









(** The manager is connected and none of its calls will fail. *)
Definition healthy (self : SheetsManager) : Prop :=
  is_connected self = true /\ faults self = [].

(** The row [add_qr_token] writes for a token. *)
Definition token_row (token participant_id agenda_item_id device_id : string)
    (expires_at : Z) : list string :=
  [token; participant_id; agenda_item_id; device_id; str_of_int expires_at].

(** The dictionary [consume_qr_token] returns for such a row. *)
Definition token_data_of (row : list string) (expires_at : Z) : gmap string pyval :=
  <["expires_at" := PInt expires_at]> (dict_zip QR_TOKENS_HEADERS row).

(** A row of the attendance log is about this participant and agenda item. *)
Definition pair_is (participant_id agenda_item_id : string) (row : list string) : Prop :=
  row !! 1%nat = Some participant_id /\ row !! 2%nat = Some agenda_item_id.

#[global] Instance pair_is_dec p a row : Decision (pair_is p a row).
Proof. unfold pair_is. apply _. Defined.

(** The token payload [generate_qr_token] hands to [add_qr_token]. *)
Definition token_payload_of (request : TokenRequest.t) (uuid4 : string) (expires_at : Z)
  : gmap string pyval :=
  <["token_uuid" := PStr uuid4]>
  (<["participant_id" := PStr (TokenRequest.participant_id request)]>
  (<["agenda_item_id" := PStr (TokenRequest.agenda_item_id request)]>
  (<["device_id" := PStr (TokenRequest.device_id request)]>
  (<["expires_at" := PInt expires_at]> ∅)))).

(** An identifier that is in no cell of the first column of a worksheet (or
    whose worksheet does not exist). *)
Definition unknown_id (sheet_name id : string) (self : SheetsManager) : Prop :=
  forall rows, spreadsheet self !! sheet_name = Some rows ->
    list_find (cell_is 1 id) rows = None.

(** The identifier is in the first column of a worksheet that has headers. *)
Definition known_id (sheet_name id : string) (self : SheetsManager) : Prop :=
  exists h headers rows i row,
    spreadsheet self !! sheet_name = Some ((h :: headers) :: rows) /\
    list_find (cell_is 1 id) ((h :: headers) :: rows) = Some (i, row).

(** One call of the check-in route: the request and the readings of the
    clock and of [uuid4] made while it is served. *)
Record redemption := {
  rd_request : CheckInRequest.t;
  rd_time : Q;
  rd_utc_now : datetime;
  rd_record_id : string;
  rd_local_now : datetime
}.

Definition redeem (rd : redemption) : prog CheckInResponse.t :=
  check_in (rd_request rd) (rd_time rd) (rd_utc_now rd) (rd_record_id rd) (rd_local_now rd).

(** Redemptions served one after the other, each to its end. *)
Fixpoint redeem_all (rds : list redemption) (self : SheetsManager)
  : list (result CheckInResponse.t) * SheetsManager :=
  match rds with
  | [] => ([], self)
  | rd :: rds' =>
      let '(r, self') := run (redeem rd) self in
      let '(rs, self'') := redeem_all rds' self' in
      (r :: rs, self'')
  end.









(** A token of participant [P001] for agenda item [A101] on the sample
    store. *)
Definition sample_token : list string :=
  token_row "uuid-1" "P001" "A101" "deviceA" 1700000015.

Definition sample_store : SheetsManager := sample [sample_token] [] [].

Definition sample_redemption (token record_id : string) (time_time : Z) : redemption :=
  {| rd_request := scan token "A101"; rd_time := inject_Z time_time;
     rd_utc_now := dt0; rd_record_id := record_id; rd_local_now := dt1 |}.

(** The row [participant_signup] writes for a new participant, and its
    answer. *)
Definition signup_row (request : ParticipantSignupRequest.t)
    (new_id hashed_password : string) : list string :=
  [new_id;
   ParticipantSignupRequest.name request;
   ParticipantSignupRequest.email request;
   ParticipantSignupRequest.phone_number request;
   default "" (ParticipantSignupRequest.organization request);
   hashed_password].

Definition signup_answer (new_id : string) : ParticipantSignupResponse.t :=
  {| ParticipantSignupResponse.status := "success";
     ParticipantSignupResponse.participant_id := new_id;
     ParticipantSignupResponse.message :=
       "註冊成功！您現在可以使用 Email 和密碼登入 App B。" |}.




(** A row of the administrators and a row of the participants. *)
Definition admin_row (id username password_hash role last_login : string) : list string :=
  [id; username; password_hash; role; last_login].


Definition participant_row (id name email phone_number organization login_hash : string)
  : list string :=
  [id; name; email; phone_number; organization; login_hash].

(** What [initialize_system] leaves in a worksheet of the definitions: the
    headers written over row 1 of what the worksheet held, or of nothing
    when the data are cleared, and below the last row the rows of step 2. *)
Definition seed_rows (hashed_password now_text today1 today2 title : string) : worksheet :=
  if String.eqb title "Admins" then admin_data hashed_password now_text
  else if String.eqb title "Participants" then participant_data hashed_password
  else if String.eqb title "Events" then events_data
  else if String.eqb title "Agenda_Items" then agenda_data
  else if String.eqb title "Registration" then registration_data today1 today2
  else [].

Definition initialized_sheet (clear_data : bool)
    (hashed_password now_text today1 today2 : string)
    (sheets : gmap string worksheet) (title : string) (headers : list string) : worksheet :=
  update_A1 headers (if clear_data then [] else default [] (sheets !! title)) ++
  seed_rows hashed_password now_text today1 today2 title.

(** The answer of a successful [initialize_db]. *)
Definition initialization_answer : InitializationResponse.t :=
  {| InitializationResponse.status := "success";
     InitializationResponse.sheets_initialized := WORKSHEET_DEFINITIONS.*1;
     InitializationResponse.message := "系統初始化成功，請勿再次運行。" |}.



Definition sample_str_e (e : exn) : string :=
  match e with
  | Exception msg => msg
  | _ => "error"
  end.

Definition sample_accounts (fs : list bool) : SheetsManager :=
  {| is_connected := true;
     spreadsheet :=
       <["Admins" := [ADMINS_HEADERS;
                      admin_row "1" "admin" "hash:test1234" "SUPER_ADMIN" ""]]>
       (<["Participants" := [PARTICIPANTS_HEADERS;
            participant_row "P001" "Wang" "ming@test.com" "0910123456" "Tech" "hash:test1234";
            participant_row "P002" "Chen" "hua@test.com" "0920654321" "Med" "hash:abcdef"]]> ∅);
     faults := fs |}.

Definition sample_signup : ParticipantSignupRequest.t :=
  {| ParticipantSignupRequest.name := "Lin";
     ParticipantSignupRequest.email := "lin@test.com";
     ParticipantSignupRequest.phone_number := "0930111222";
     ParticipantSignupRequest.organization := None;
     ParticipantSignupRequest.password := "secret1" |}.

Definition sample_initialization (clear_data : bool) : InitializationRequest.t :=
  {| InitializationRequest.secret_key := INIT_MASTER_KEY;
     InitializationRequest.clear_data := clear_data |}.

(** The lookup of a worksheet in a spreadsheet written by insertions. *)
Ltac lookup_sheets :=
  repeat first [ rewrite lookup_insert_eq | rewrite lookup_insert_ne by done ].

(** * Properties *)

(** ** Running composed programs *)

Lemma run_bind {A B} (p : prog A) (f : A -> prog B) self :
  run (bind p f) self =
  match run p self with
  | (Return a, self') => run (f a) self'
  | (Raise e, self') => (Raise e, self')
  end.
Proof.
  revert self. induction p as [a|e|C c k IH]; intros self; simpl; try reflexivity.
  destruct (handle c self) as [r self']. apply IH.
Qed.

Lemma run_try_except {A} (p : prog A) (h : exn -> prog A) self :
  run (try_except p h) self =
  match run p self with
  | (Return a, self') => (Return a, self')
  | (Raise e, self') => run (h e) self'
  end.
Proof.
  revert self. induction p as [a|e|C c k IH]; intros self; simpl; try reflexivity.
  destruct (handle c self) as [r self']. apply IH.
Qed.

Lemma calls_bind {A B} (p : prog A) (f : A -> prog B) self :
  calls (bind p f) self =
  calls p self ++
  match run p self with
  | (Return a, self') => calls (f a) self'
  | (Raise e, self') => []
  end.
Proof.
  revert self. induction p as [a|e|C c k IH]; intros self; simpl; try reflexivity.
  destruct (handle c self) as [r self']. rewrite IH. by rewrite app_assoc.
Qed.

Lemma calls_try_except {A} (p : prog A) (h : exn -> prog A) self :
  calls (try_except p h) self =
  calls p self ++
  match run p self with
  | (Return a, self') => []
  | (Raise e, self') => calls (h e) self'
  end.
Proof.
  revert self. induction p as [a|e|C c k IH]; intros self; simpl;
    rewrite ?app_nil_r; try reflexivity.
  destruct (handle c self) as [r self']. rewrite IH. by rewrite app_assoc.
Qed.

(** A thread that is alone makes the calls of [run]: the run to the end is
    one of the interleavings. *)
Lemma interleave_alone {A} (p : prog A) self :
  exists n,
    interleave (replicate n 0%nat) [p] self =
    ([of_result (fst (run p self))], snd (run p self)).
Proof.
  revert self. induction p as [a|e|C c k IH]; intros self.
  - by exists 0%nat.
  - by exists 0%nat.
  - simpl. destruct (handle c self) as [r self'] eqn:Hc.
    destruct (IH r self') as (n & Hn). exists (S n). simpl. by rewrite Hc.
Qed.

(** ** The calls on a manager whose tape is empty *)

Lemma remote_nil {A} (f : SheetsManager -> result A * SheetsManager) self :
  faults self = [] -> remote f self = f self.
Proof. unfold remote. by intros ->. Qed.

(** A call changes neither the connection flag nor, unless it deletes or
    appends a row, the spreadsheet. *)
Lemma handle_is_connected {B} (c : gspread B) self r self' :
  handle c self = (r, self') -> is_connected self' = is_connected self.
Proof.
  destruct c; simpl; unfold remote, with_sheet; intros H;
    repeat case_match; by simplify_eq/=.
Qed.

Lemma handle_faults_nil {B} (c : gspread B) self r self' :
  handle c self = (r, self') -> faults self = [] -> faults self' = [].
Proof.
  destruct c; simpl; unfold remote, with_sheet; intros H Hf; rewrite ?Hf in H;
    repeat case_match; by simplify_eq/=.
Qed.

Lemma run_is_connected {A} (p : prog A) self r self' :
  run p self = (r, self') -> is_connected self' = is_connected self.
Proof.
  revert self. induction p as [a|e|C c k IH]; intros self; simpl.
  - by intros [= _ <-].
  - by intros [= _ <-].
  - destruct (handle c self) as [r0 self0] eqn:Hc. intros H.
    rewrite (IH _ _ H). by eapply handle_is_connected.
Qed.

Lemma run_faults_nil {A} (p : prog A) self r self' :
  run p self = (r, self') -> faults self = [] -> faults self' = [].
Proof.
  revert self. induction p as [a|e|C c k IH]; intros self; simpl.
  - by intros [= _ <-].
  - by intros [= _ <-].
  - destruct (handle c self) as [r0 self0] eqn:Hc. intros H Hf.
    eapply IH; [done|]. by eapply handle_faults_nil.
Qed.

(** ** The methods of SheetsManager *)


Lemma get_worksheet_ok title self rows :
  is_connected self = true -> faults self = [] -> spreadsheet self !! title = Some rows ->
  run (get_worksheet title) self = (Return title, self).
Proof.
  intros Hc Hf Hs. unfold get_worksheet.
  repeat (progress (simpl; unfold remote, with_sheet; rewrite ?Hc, ?Hf, ?Hs)). done.
Qed.

Lemma get_all_records_inv sheet_name self r self' :
  run (get_all_records sheet_name) self = (r, self') ->
  spreadsheet self' = spreadsheet self /\ exists logs, r = Return logs.
Proof. unfold get_all_records, get_worksheet. by_cases; eauto. Qed.

Lemma get_all_records_ok sheet_name self rows :
  is_connected self = true -> faults self = [] -> spreadsheet self !! sheet_name = Some rows ->
  run (get_all_records sheet_name) self = (Return (records_of rows), self).
Proof.
  intros Hc Hf Hs. unfold get_all_records, get_worksheet.
  repeat (progress (simpl; unfold remote, with_sheet; rewrite ?Hc, ?Hf, ?Hs)). done.
Qed.

Lemma find_record_by_id_inv sheet_name record_id id_column self r self' :
  run (find_record_by_id sheet_name record_id id_column) self = (r, self') ->
  spreadsheet self' = spreadsheet self /\
  exists found, r = Return found /\
    forall d, found = Some d ->
      exists q rows i row,
        record_id = PStr q /\ spreadsheet self !! sheet_name = Some rows /\
        list_find (cell_is id_column q) rows = Some (i, row) /\
        d = dict_zip (default [] (rows !! 0%nat)) row /\
        is_connected self = true.
Proof.
  unfold find_record_by_id, get_worksheet. by_cases; (split; [done|]);
    eexists; (split; [done|]); intros d [= <-] || intros d [=].
  all: match goal with
       | H : list_find _ ?rows = Some (?i, ?row) |- _ =>
           rewrite (proj1 (proj1 (list_find_Some _ _ _ _) H)); simpl; eauto 10
       end.
Qed.

Lemma find_record_by_id_ok sheet_name q id_column self rows i row :
  is_connected self = true -> faults self = [] ->
  spreadsheet self !! sheet_name = Some rows ->
  list_find (cell_is id_column q) rows = Some (i, row) ->
  run (find_record_by_id sheet_name (PStr q) id_column) self =
  (Return (Some (dict_zip (default [] (rows !! 0%nat)) row)), self).
Proof.
  intros Hc Hf Hs Hfind. unfold find_record_by_id, get_worksheet.
  forward Hc Hf. rewrite Hs. forward Hc Hf. rewrite Hs, Hfind.
  forward Hc Hf. rewrite Hs. forward Hc Hf. rewrite Hs. simpl.
  by rewrite (proj1 (proj1 (list_find_Some _ _ _ _) Hfind)).
Qed.

Lemma append_row_inv sheet_name data self r self' :
  run (append_row sheet_name data) self = (r, self') ->
  match r with
  | Return _ =>
      if is_connected self then
        exists rows, spreadsheet self !! sheet_name = Some rows /\
          spreadsheet self' = <[sheet_name := rows ++ [cell_of <$> data]]> (spreadsheet self)
      else spreadsheet self' = spreadsheet self
  | Raise e => StorageError e = true /\ spreadsheet self' = spreadsheet self
  end.
Proof.
  unfold append_row, get_worksheet. by_cases; eauto;
    match goal with H : is_connected _ = _ |- _ => rewrite H end; eauto.
Qed.

Lemma append_row_ok sheet_name data self rows :
  is_connected self = true -> faults self = [] ->
  spreadsheet self !! sheet_name = Some rows ->
  run (append_row sheet_name data) self =
  (Return None,
   set_spreadsheet (<[sheet_name := rows ++ [cell_of <$> data]]> (spreadsheet self)) self).
Proof.
  intros Hc Hf Hs. unfold append_row, get_worksheet.
  forward Hc Hf. rewrite Hs. forward Hc Hf. by rewrite Hs.
Qed.

Lemma consume_qr_token_inv tok self r self' :
  run (consume_qr_token tok) self = (r, self') ->
  exists found, r = Return found /\
    match found with
    | Some token_data =>
        is_connected self = true /\
        exists rows i row e,
          spreadsheet self !! "Qr_Tokens" = Some rows /\
          list_find (cell_is 1 tok) rows = Some (i, row) /\
          spreadsheet self' = <["Qr_Tokens" := delete i rows]> (spreadsheet self) /\
          token_data = <["expires_at" := PInt e]> (dict_zip (default [] (rows !! 0%nat)) row)
    | None =>
        spreadsheet self' = spreadsheet self \/
        exists rows i row,
          spreadsheet self !! "Qr_Tokens" = Some rows /\
          list_find (cell_is 1 tok) rows = Some (i, row) /\
          spreadsheet self' = <["Qr_Tokens" := delete i rows]> (spreadsheet self)
    end.
Proof.
  unfold consume_qr_token, get_worksheet, py_int. by_cases;
    (eexists; split; [reflexivity|]; simpl); try (left; reflexivity).
  all: try (right; eauto 10).
  all: split; [done|].
  all: match goal with
       | H : list_find _ ?rows = Some (?i, ?row) |- _ =>
           rewrite (proj1 (proj1 (list_find_Some _ _ _ _) H)); simpl; eauto 10
       end.
Qed.

(** ** The steps of check_in *)

(** From here on the methods are used through the lemmas above. *)
Arguments get_worksheet : simpl never.
Arguments get_all_records : simpl never.
Arguments find_record_by_id : simpl never.
Arguments append_row : simpl never.
Arguments add_qr_token : simpl never.
Arguments consume_qr_token : simpl never.

Lemma check_in_inv request time_time utc_now record_id local_now self r self' :
  run (check_in request time_time utc_now record_id local_now) self = (r, self') ->
  check_in_steps request time_time utc_now record_id local_now self r self'
    (calls (check_in request time_time utc_now record_id local_now) self).
Proof.
  remember (calls _ self) as trace eqn:Ht. revert Ht.
  unfold check_in, check_in_steps. rewrite run_bind, calls_bind. cbv zeta.
  destruct (run (consume_qr_token _) self) as [rc s1] eqn:Hc.
  destruct (consume_qr_token_inv _ _ _ _ Hc) as (found & -> & Hfound).
  intros Ht H. exists found, s1. split; [done|].
  destruct found as [token_data|];
    [|simpl in Ht; rewrite app_nil_r in Ht; by simplify_eq/=].
  destruct Hfound as (_ & rows & i & row & e & _ & _ & _ & ->).
  assert (truthy (Some (<["expires_at":=PInt e]>
            (dict_zip (default [] (rows !! 0%nat)) row))) = true) as Htr.
  { simpl. apply negb_true_iff, bool_decide_eq_false. apply insert_non_empty. }
  rewrite Htr in H, Ht. cbn in H, Ht.
  exists e. split; [apply lookup_insert_eq|].
  unfold dict_item in H, Ht.
  rewrite lookup_insert_eq in H, Ht. cbn in H, Ht.
  destruct (time_after time_time e);
    [simpl in Ht; rewrite app_nil_r in Ht; by simplify_eq/=|].
  destruct (negb (bool_decide _));
    [simpl in Ht; rewrite app_nil_r in Ht; by simplify_eq/=|].
  rewrite run_bind in H. rewrite calls_bind in Ht.
  destruct (run (get_all_records _) s1) as [rl s2] eqn:Hl.
  destruct (get_all_records_inv _ _ _ _ Hl) as (_ & logs & ->).
  exists logs, s2. split; [done|].
  destruct (already_checked_in _ _ _);
    [simpl in Ht; rewrite app_nil_r in Ht; by simplify_eq/=|].
  rewrite run_bind in H. rewrite calls_bind in Ht.
  fold (log_data_of request
    (dict_get (<["expires_at":=PInt e]> (dict_zip (default [] (rows !! 0%nat)) row))
       "participant_id") utc_now record_id) in H, Ht.
  destruct (run (append_row _ _) s2) as [ra s3] eqn:Ha.
  exists ra, s3. split; [done|].
  destruct ra as [?|ea]; [|rewrite app_nil_r in Ht; by simplify_eq/=].
  rewrite run_bind in H. rewrite calls_bind in Ht.
  destruct (run (find_record_by_id _ _ _) s3) as [rp s4] eqn:Hp.
  destruct (find_record_by_id_inv _ _ _ _ _ _ Hp) as (_ & pd & -> & _).
  destruct pd as [pd|]; simpl in H, Ht; rewrite app_nil_r in Ht;
    simplify_eq/=; eexists; split; done.
Qed.

(** ** The order of the remote calls *)







(** ** The order of the steps of a redemption *)


(** ** A store failure during the consumption *)





(** ** A failed append after the consumption *)

(** C7. When the token has been consumed, the checks pass and the append
    to the attendance log fails, [check_in] raises the error of the store
    (an [APIError] or the [Exception] of [get_worksheet], not one of its own
    rejections), the attendance log has no new row and the row of the token
    stays deleted. *)
Theorem storage_failure_after_consumption
    request time_time utc_now record_id local_now self
    token_data s1 expires_at logs s2 e s3 :
  let p_id := dict_get token_data "participant_id" in
  let a_id_token := dict_get token_data "agenda_item_id" in
  run (consume_qr_token (CheckInRequest.qr_code_token request)) self =
    (Return (Some token_data), s1) ->
  token_data !! "expires_at" = Some (PInt expires_at) ->
  time_after time_time expires_at = false ->
  a_id_token = PStr (CheckInRequest.agenda_item_id request) ->
  run (get_all_records "Attendance_Log") s1 = (Return logs, s2) ->
  already_checked_in logs p_id a_id_token = false ->
  run (append_row "Attendance_Log" (log_data_of request p_id utc_now record_id)) s2 =
    (Raise e, s3) ->
  run (check_in request time_time utc_now record_id local_now) self = (Raise e, s3) /\
  StorageError e = true /\
  spreadsheet s3 = spreadsheet s1 /\
  exists rows i row,
    spreadsheet self !! "Qr_Tokens" = Some rows /\
    list_find (cell_is 1 (CheckInRequest.qr_code_token request)) rows = Some (i, row) /\
    spreadsheet s3 = <["Qr_Tokens" := delete i rows]> (spreadsheet self).
Proof.
  intros p_id a_id_token Hc Hexp Hnot_after Hagenda Hscan Hdup Happ.
  destruct (run (check_in request time_time utc_now record_id local_now) self)
    as [r self'] eqn:H.
  destruct (check_in_inv _ _ _ _ _ _ _ _ H) as (found & s1' & Hc' & Hrest).
  cbv zeta in Hc'. rewrite Hc in Hc'. injection Hc' as <- <-.
  destruct Hrest as (e' & He' & Hrest). rewrite Hexp in He'. injection He' as <-.
  cbv zeta in Hrest. fold p_id a_id_token in Hrest.
  rewrite Hnot_after, Hagenda in Hrest.
  rewrite bool_decide_eq_true_2 in Hrest by done. cbn in Hrest.
  destruct Hrest as (logs' & s2' & Hscan' & Hrest).
  rewrite Hscan in Hscan'. injection Hscan' as <- <-.
  rewrite <- Hagenda in Hrest. rewrite Hdup in Hrest.
  destruct Hrest as (appended & s3' & Happ' & Hrest).
  rewrite Happ in Happ'. injection Happ' as <- <-.
  destruct Hrest as (-> & -> & _).
  destruct (append_row_inv _ _ _ _ _ Happ) as (Hst & Hs3).
  destruct (get_all_records_inv _ _ _ _ Hscan) as (Hs2 & _).
  destruct (consume_qr_token_inv _ _ _ _ Hc) as (? & [= <-] & _ & rows & i & row & ? & Hr & Hf & Hs1 & _).
  repeat split; [done|congruence|].
  exists rows, i, row. repeat split; [done..|congruence].
Qed.

(** ** The two check-in times *)

Lemma isoformat_strftime_differ d1 d2 : isoformat d1 <> strftime d2.
Proof.
  unfold isoformat, strftime, zfill4, zfill2. simpl. intros H.
  repeat (injection H as _ H). discriminate.
Qed.

(** What a successful [check_in] did to the store. *)
Lemma check_in_success_inv request time_time utc_now record_id local_now self resp self' :
  run (check_in request time_time utc_now record_id local_now) self = (Return resp, self') ->
  exists tokens i token_row e log participant_data,
    let token_data :=
      <["expires_at" := PInt e]> (dict_zip (default [] (tokens !! 0%nat)) token_row) in
    let p_id := dict_get token_data "participant_id" in
    is_connected self = true /\
    spreadsheet self !! "Qr_Tokens" = Some tokens /\
    list_find (cell_is 1 (CheckInRequest.qr_code_token request)) tokens = Some (i, token_row) /\
    time_after time_time e = false /\
    dict_get token_data "agenda_item_id" = PStr (CheckInRequest.agenda_item_id request) /\
    <["Qr_Tokens" := delete i tokens]> (spreadsheet self) !! "Attendance_Log" = Some log /\
    spreadsheet self' =
      <["Attendance_Log" := log ++ [cell_of <$> log_data_of request p_id utc_now record_id]]>
        (<["Qr_Tokens" := delete i tokens]> (spreadsheet self)) /\
    resp = success_of p_id participant_data local_now.
Proof.
  intros H. destruct (check_in_inv _ _ _ _ _ _ _ _ H) as (found & s1 & Hc & Hrest).
  cbv zeta in Hc.
  destruct (consume_qr_token_inv _ _ _ _ Hc) as (? & [= <-] & Hf).
  destruct found as [token_data|]; [|by destruct Hrest].
  destruct Hf as (Hconn & tokens & i & token_row & e & Htok & Hfind & Hs1 & ->).
  destruct Hrest as (e' & He' & Hrest). rewrite lookup_insert_eq in He'.
  injection He' as <-. cbv zeta in Hrest.
  destruct (time_after time_time e) eqn:Hafter; [by destruct Hrest|].
  destruct (bool_decide _) eqn:Hagenda; simpl in Hrest; [|by destruct Hrest].
  apply bool_decide_eq_true_1 in Hagenda.
  destruct Hrest as (logs & s2 & Hscan & Hrest).
  destruct (already_checked_in _ _ _); [by destruct Hrest|].
  destruct Hrest as (appended & s3 & Happ & Hrest).
  destruct appended as [x|]; [|by destruct Hrest].
  destruct Hrest as (pd & Hlook & _ & Hresp).
  destruct pd as [pd|]; [|done]. injection Hresp as ->.
  destruct (get_all_records_inv _ _ _ _ Hscan) as (Hs2 & _).
  pose proof (append_row_inv _ _ _ _ _ Happ) as Hainv. simpl in Hainv.
  rewrite (run_is_connected _ _ _ _ Hscan), (run_is_connected _ _ _ _ Hc), Hconn in Hainv.
  destruct Hainv as (log & Hlog & Hs3).
  destruct (find_record_by_id_inv _ _ _ _ _ _ Hlook) as (Hs4 & _).
  exists tokens, i, token_row, e, log, pd. cbv zeta.
  rewrite Hs4, Hs3, Hs2, Hs1. rewrite Hs2, Hs1 in Hlog. done.
Qed.

(** C10. On every successful [check_in] the row appended to the attendance
    log carries, as [checkin_time], the ISO text of the UTC reading taken
    before the append, while the answer carries the text of a second, local
    reading in the format [%Y-%m-%d %H:%M:%S]; the two texts differ. *)
Theorem reported_time_differs request time_time utc_now record_id local_now self resp self' :
  run (check_in request time_time utc_now record_id local_now) self = (Return resp, self') ->
  exists log row,
    spreadsheet self' !! "Attendance_Log" = Some log /\
    last log = Some row /\
    row !! 3%nat = Some (isoformat utc_now) /\
    CheckInResponse.checkin_time resp = strftime local_now /\
    row !! 3%nat <> Some (CheckInResponse.checkin_time resp).
Proof.
  intros H.
  destruct (check_in_success_inv _ _ _ _ _ _ _ _ H)
    as (tokens & i & token_row & e & log & pd & _ & _ & _ & _ & _ & _ & Hs & ->).
  eexists _, _. rewrite Hs, lookup_insert_eq. split; [done|].
  rewrite last_snoc. split; [done|]. split; [reflexivity|]. split; [reflexivity|].
  change (Some (isoformat utc_now) <> Some (strftime local_now)).
  intros Heq. apply (isoformat_strftime_differ utc_now local_now). congruence.
Qed.

(** ** Single use *)





(** ** Redemption on a store that answers every call *)

Lemma healthy_set_spreadsheet sheets self :
  healthy self -> healthy (set_spreadsheet sheets self).
Proof. by intros [??]. Qed.

Lemma int_of_str_of_int z : int_of_str (str_of_int z) = Some z.
Proof.
  unfold int_of_str, str_of_int. rewrite NilZero.isi.
  - simpl. by rewrite DecimalZ.of_to.
  - destruct z; simpl; try discriminate. intros [= H].
    by apply Unsigned.to_uint_nonnil in H.
  - destruct z; simpl; try discriminate. intros [= H].
    by apply Unsigned.to_uint_nonnil in H.
Qed.

Lemma list_find_below_headers token headers tokens i row :
  ~ cell_is 1 token headers ->
  list_find (cell_is 1 token) tokens = Some (i, row) ->
  list_find (cell_is 1 token) (headers :: tokens) = Some (S i, row).
Proof. intros Hh Hfind. simpl. rewrite decide_False by done. by rewrite Hfind. Qed.

Lemma consume_qr_token_ok token self tokens i t p a d e :
  healthy self ->
  spreadsheet self !! "Qr_Tokens" = Some (QR_TOKENS_HEADERS :: tokens) ->
  token <> "token_uuid" ->
  list_find (cell_is 1 token) tokens = Some (i, token_row t p a d e) ->
  run (consume_qr_token token) self =
  (Return (Some (token_data_of (token_row t p a d e) e)),
   set_spreadsheet (<["Qr_Tokens" := QR_TOKENS_HEADERS :: delete i tokens]> (spreadsheet self))
     self).
Proof.
  intros [Hc Hf] Hs Hne Hfind.
  assert (list_find (cell_is 1 token) (QR_TOKENS_HEADERS :: tokens) =
            Some (S i, token_row t p a d e)) as Hfull.
  { apply list_find_below_headers; [|done]. by intros [= ?]. }
  pose proof (proj1 (proj1 (list_find_Some _ _ _ _) Hfind)) as Hrow.
  unfold consume_qr_token, get_worksheet.
  forward Hc Hf. rewrite Hs. forward Hc Hf. rewrite Hs, Hfull.
  forward Hc Hf. rewrite Hs. forward Hc Hf. rewrite Hs. forward Hc Hf. rewrite Hs.
  simpl. rewrite Hrow. simpl.
  change (dict_get_default (dict_zip QR_TOKENS_HEADERS (token_row t p a d e))
            "expires_at" (PInt 0)) with (PStr (str_of_int e)).
  simpl. rewrite int_of_str_of_int. done.
Qed.

Lemma token_data_fields t p a d e :
  token_data_of (token_row t p a d e) e !! "expires_at" = Some (PInt e) /\
  dict_get (token_data_of (token_row t p a d e) e) "participant_id" = PStr p /\
  dict_get (token_data_of (token_row t p a d e) e) "agenda_item_id" = PStr a.
Proof. repeat split; reflexivity. Qed.

Lemma log_record_matches row p a :
  bool_decide (dict_get (dict_zip ATTENDANCE_LOG_HEADERS row) "participant_id" = PStr p) &&
  bool_decide (dict_get (dict_zip ATTENDANCE_LOG_HEADERS row) "agenda_item_id" = PStr a) =
  bool_decide (pair_is p a row).
Proof.
  unfold pair_is. rewrite <- bool_decide_and. apply bool_decide_ext.
  destruct row as [|c0 [|c1 [|c2 [|c3 [|c4 [|c5 [|c6 [|c7 row]]]]]]]];
    match goal with
    | |- ?x = _ /\ ?y = _ <-> _ =>
        let x' := eval vm_compute in x in
        let y' := eval vm_compute in y in
        change x with x'; change y with y'
    end; simpl;
    (split; intros [Hp Ha]; split; congruence).
Qed.

Lemma already_checked_in_log log p a :
  already_checked_in (records_of (ATTENDANCE_LOG_HEADERS :: log)) (PStr p) (PStr a) =
  bool_decide (Exists (pair_is p a) log).
Proof.
  unfold already_checked_in, records_of. induction log as [|row log IH]; [done|].
  rewrite fmap_cons. cbn [existsb]. rewrite IH, log_record_matches, <- bool_decide_or.
  apply bool_decide_ext. by rewrite Exists_cons.
Qed.

(** The run of [check_in] on a healthy manager whose token sheet and
    attendance log have their headers, for a token that is on the sheet. *)
Lemma check_in_healthy request time_time utc_now record_id local_now self
    tokens log i t p a d e :
  let token := CheckInRequest.qr_code_token request in
  let s1 :=
    set_spreadsheet
      (<["Qr_Tokens" := QR_TOKENS_HEADERS :: delete i tokens]> (spreadsheet self)) self in
  let s2 :=
    set_spreadsheet
      (<["Attendance_Log" :=
           (ATTENDANCE_LOG_HEADERS :: log) ++
           [cell_of <$> log_data_of request (PStr p) utc_now record_id]]>
         (spreadsheet s1)) s1 in
  healthy self ->
  spreadsheet self !! "Qr_Tokens" = Some (QR_TOKENS_HEADERS :: tokens) ->
  spreadsheet self !! "Attendance_Log" = Some (ATTENDANCE_LOG_HEADERS :: log) ->
  token <> "token_uuid" ->
  list_find (cell_is 1 token) tokens = Some (i, token_row t p a d e) ->
  run (check_in request time_time utc_now record_id local_now) self =
  if time_after time_time e then (Raise Expired, s1)
  else if negb (bool_decide (a = CheckInRequest.agenda_item_id request))
  then (Raise AgendaMismatch, s1)
  else if bool_decide (Exists (pair_is p a) log) then (Raise DuplicateCheckIn, s1)
  else
    match run (find_record_by_id "Participants" (PStr p) 1) s2 with
    | (Return (Some participant_data), s3) =>
        (Return (success_of (PStr p) participant_data local_now), s3)
    | (Return None, s3) => (Raise AttributeError, s3)
    | (Raise err, s3) => (Raise err, s3)
    end.
Proof.
  intros token s1 s2 Hh Htok Hlog Hne Hfind.
  unfold check_in. rewrite run_bind. fold token.
  rewrite (consume_qr_token_ok token self tokens i t p a d e Hh Htok Hne Hfind).
  fold s1.
  assert (truthy (Some (token_data_of (token_row t p a d e) e)) = true) as ->.
  { simpl. apply negb_true_iff, bool_decide_eq_false. apply insert_non_empty. }
  cbn [negb].
  destruct (token_data_fields t p a d e) as (He & Hp & Ha).
  unfold dict_item. rewrite He, Hp, Ha. cbn.
  destruct (time_after time_time e); [done|].
  assert (bool_decide (PStr a = PStr (CheckInRequest.agenda_item_id request)) =
          bool_decide (a = CheckInRequest.agenda_item_id request)) as ->.
  { apply bool_decide_ext. split; congruence. }
  destruct (bool_decide (a = _)) eqn:Hagenda; [|done]. cbn [negb].
  assert (healthy s1) as Hh1 by by apply healthy_set_spreadsheet.
  assert (spreadsheet s1 !! "Attendance_Log" = Some (ATTENDANCE_LOG_HEADERS :: log)) as Hlog1.
  { unfold s1. simpl. by rewrite lookup_insert_ne. }
  rewrite run_bind.
  rewrite (get_all_records_ok _ _ _ (proj1 Hh1) (proj2 Hh1) Hlog1).
  rewrite already_checked_in_log.
  destruct (bool_decide (Exists _ log)); [done|].
  rewrite run_bind.
  rewrite (append_row_ok _ _ _ _ (proj1 Hh1) (proj2 Hh1) Hlog1).
  fold (log_data_of request (PStr p) utc_now record_id). fold s2.
  rewrite run_bind.
  destruct (run (find_record_by_id _ _ _) s2) as [[[pd|]|err] s3]; done.
Qed.

(** ** Expiry *)

Lemma time_after_iff time_time expires_at :
  time_after time_time expires_at = true <-> (inject_Z expires_at < time_time)%Q.
Proof.
  unfold time_after. rewrite negb_true_iff, <- not_true_iff_false, Qle_bool_iff.
  split; [apply Qnot_le_lt|apply Qlt_not_le].
Qed.

(** C2, as the code has it.  A token that is on the token sheet of a healthy
    manager and is redeemed at a time strictly after its [expires_at] is
    rejected as expired, and its row is deleted all the same.  (At the very
    instant [expires_at] the token is still accepted, see
    [expiry_boundary_accepted].) *)
Theorem expiry_enforced request time_time utc_now record_id local_now self
    tokens i t p a d e :
  let token := CheckInRequest.qr_code_token request in
  healthy self ->
  spreadsheet self !! "Qr_Tokens" = Some (QR_TOKENS_HEADERS :: tokens) ->
  token <> "token_uuid" ->
  list_find (cell_is 1 token) tokens = Some (i, token_row t p a d e) ->
  (inject_Z e < time_time)%Q ->
  exists s1,
    run (check_in request time_time utc_now record_id local_now) self = (Raise Expired, s1) /\
    spreadsheet s1 =
      <["Qr_Tokens" := QR_TOKENS_HEADERS :: delete i tokens]> (spreadsheet self).
Proof.
  intros token Hh Htok Hne Hfind Hafter. apply time_after_iff in Hafter.
  eexists. unfold check_in. rewrite run_bind. fold token.
  rewrite (consume_qr_token_ok token self tokens i t p a d e Hh Htok Hne Hfind).
  assert (truthy (Some (token_data_of (token_row t p a d e) e)) = true) as ->.
  { simpl. apply negb_true_iff, bool_decide_eq_false. apply insert_non_empty. }
  cbn [negb]. unfold dict_item.
  rewrite (proj1 (token_data_fields t p a d e)). cbn. rewrite Hafter. done.
Qed.

(** The claim C2 with [>=] fails: at the instant [expires_at] itself the
    token is accepted and the attendance is recorded. *)
Lemma expiry_boundary_accepted :
  let self := sample [token_row "uuid-1" "P001" "A101" "deviceA" 1700000015] [] [] in
  let time_time := inject_Z 1700000015 in
  (inject_Z 1700000015 <= time_time)%Q /\
  exists resp s1,
    run (check_in (scan "uuid-1" "A101") time_time dt0 "rec-1" dt1) self = (Return resp, s1) /\
    spreadsheet s1 !! "Attendance_Log" =
      Some [ATTENDANCE_LOG_HEADERS;
            ["rec-1"; "P001"; "A101"; isoformat dt0; "QR_CODE"; "scanner1"; "TRUE"]].
Proof.
  split; [apply Qle_refl|]. eexists _, _. split; [vm_compute; reflexivity|].
  vm_compute. reflexivity.
Qed.

(** ** The duplicate test *)



(** ** Issuing a token *)

Lemma add_qr_token_inv request uuid4 expires_at self r self' :
  run (add_qr_token (token_payload_of request uuid4 expires_at)) self = (r, self') ->
  match r with
  | Return _ =>
      if is_connected self then
        exists rows, spreadsheet self !! "Qr_Tokens" = Some rows /\
          spreadsheet self' =
            <["Qr_Tokens" :=
                rows ++ [token_row uuid4 (TokenRequest.participant_id request)
                           (TokenRequest.agenda_item_id request)
                           (TokenRequest.device_id request) expires_at]]>
              (spreadsheet self)
      else spreadsheet self' = spreadsheet self
  | Raise e => spreadsheet self' = spreadsheet self
  end.
Proof.
  unfold add_qr_token, get_worksheet, dict_item.
  change (token_payload_of request uuid4 expires_at !! "token_uuid")
    with (Some (PStr uuid4)).
  change (token_payload_of request uuid4 expires_at !! "participant_id")
    with (Some (PStr (TokenRequest.participant_id request))).
  change (token_payload_of request uuid4 expires_at !! "agenda_item_id")
    with (Some (PStr (TokenRequest.agenda_item_id request))).
  change (token_payload_of request uuid4 expires_at !! "device_id")
    with (Some (PStr (TokenRequest.device_id request))).
  change (token_payload_of request uuid4 expires_at !! "expires_at")
    with (Some (PInt expires_at)).
  by_cases; eauto;
    match goal with H : is_connected _ = _ |- _ => rewrite H end; eauto.
Qed.

Lemma add_qr_token_ok request uuid4 expires_at self rows :
  healthy self -> spreadsheet self !! "Qr_Tokens" = Some rows ->
  exists s1, run (add_qr_token (token_payload_of request uuid4 expires_at)) self =
    (Return true, s1).
Proof.
  intros [Hc Hf] Htok. unfold add_qr_token, get_worksheet, dict_item.
  change (token_payload_of request uuid4 expires_at !! "token_uuid")
    with (Some (PStr uuid4)).
  change (token_payload_of request uuid4 expires_at !! "participant_id")
    with (Some (PStr (TokenRequest.participant_id request))).
  change (token_payload_of request uuid4 expires_at !! "agenda_item_id")
    with (Some (PStr (TokenRequest.agenda_item_id request))).
  change (token_payload_of request uuid4 expires_at !! "device_id")
    with (Some (PStr (TokenRequest.device_id request))).
  change (token_payload_of request uuid4 expires_at !! "expires_at")
    with (Some (PInt expires_at)).
  forward Hc Hf. rewrite Htok. forward Hc Hf. rewrite Htok. eauto.
Qed.

Lemma find_record_by_id_unknown sheet_name id self :
  unknown_id sheet_name id self ->
  exists s1, run (find_record_by_id sheet_name (PStr id) 1) self = (Return None, s1) /\
    spreadsheet s1 = spreadsheet self.
Proof.
  intros Hu. destruct (run (find_record_by_id _ _ _) self) as [r s1] eqn:H.
  destruct (find_record_by_id_inv _ _ _ _ _ _ H) as (Hs & found & -> & Hf).
  destruct found as [rec|]; [|eauto].
  destruct (Hf _ eq_refl) as (q & rows & i & row & [= <-] & Hrows & Hfind & _).
  rewrite (Hu _ Hrows) in Hfind. done.
Qed.

Lemma generate_qr_token_inv request uuid4 time_time self r self' :
  run (generate_qr_token request uuid4 time_time) self = (r, self') ->
  match r with
  | Return resp =>
      resp = {| TokenResponse.status := "success";
                TokenResponse.qr_code_token := uuid4;
                TokenResponse.expires_in := QR_CODE_EXP_SECONDS |} /\
      exists rows, spreadsheet self !! "Qr_Tokens" = Some rows /\
        spreadsheet self' =
          <["Qr_Tokens" :=
              rows ++ [token_row uuid4 (TokenRequest.participant_id request)
                         (TokenRequest.agenda_item_id request)
                         (TokenRequest.device_id request)
                         (int_of_float (time_time + inject_Z QR_CODE_EXP_SECONDS))]]>
            (spreadsheet self)
  | Raise e => spreadsheet self' = spreadsheet self
  end.
Proof.
  unfold generate_qr_token. rewrite run_bind.
  destruct (run (find_record_by_id _ _ _) self) as [rp s1] eqn:Hp.
  destruct (find_record_by_id_inv _ _ _ _ _ _ Hp) as (Hs1 & participant & -> & Hpf).
  destruct (truthy participant) eqn:Htp; cbn [negb]; [|by intros [= <- <-]].
  rewrite run_bind.
  destruct (run (find_record_by_id _ _ _) s1) as [ra s2] eqn:Ha.
  destruct (find_record_by_id_inv _ _ _ _ _ _ Ha) as (Hs2 & agenda & -> & _).
  destruct (truthy agenda) eqn:Hta; cbn [negb];
    [|intros [= <- <-]; congruence].
  cbv zeta. rewrite run_bind.
  fold (token_payload_of request uuid4
          (int_of_float (time_time + inject_Z QR_CODE_EXP_SECONDS))).
  destruct (run (add_qr_token _) s2) as [rt s3] eqn:Ht.
  pose proof (add_qr_token_inv _ _ _ _ _ _ Ht) as Hinv.
  assert (is_connected s2 = true) as Hc2.
  { destruct participant as [rec|]; [|done].
    destruct (Hpf _ eq_refl) as (q & rows & i & row & _ & _ & _ & _ & Hc).
    by rewrite (run_is_connected _ _ _ _ Ha), (run_is_connected _ _ _ _ Hp). }
  destruct rt as [x|e]; simpl; intros [= <- <-].
  - rewrite Hc2 in Hinv. destruct Hinv as (rows & Hrows & Hs3).
    split; [done|]. exists rows. rewrite <- Hs1, <- Hs2. split; [done|]. by rewrite Hs3.
  - congruence.
Qed.

Lemma dict_zip_truthy h headers c row_values :
  truthy (Some (dict_zip (h :: headers) (c :: row_values))) = true.
Proof.
  simpl. apply negb_true_iff, bool_decide_eq_false. unfold dict_zip.
  rewrite fmap_cons. simpl zip. rewrite reverse_cons.
  destruct (reverse _) as [|[k v] l]; simpl; apply insert_non_empty.
Qed.

Lemma find_record_by_id_known sheet_name id self :
  healthy self -> known_id sheet_name id self ->
  exists rec, run (find_record_by_id sheet_name (PStr id) 1) self = (Return (Some rec), self) /\
    truthy (Some rec) = true.
Proof.
  intros [Hc Hf] (h & headers & rows & i & row & Hrows & Hfind).
  rewrite (find_record_by_id_ok _ _ _ _ _ _ _ Hc Hf Hrows Hfind). eexists. split; [done|].
  apply list_find_Some in Hfind as (_ & Hcell & _).
  destruct row as [|c row]; [done|]. apply dict_zip_truthy.
Qed.

Lemma int_of_float_bounds x :
  (0 <= x)%Q ->
  (inject_Z (int_of_float x) <= x)%Q /\ (x < inject_Z (int_of_float x) + 1)%Q.
Proof.
  intros Hx. assert (int_of_float x = Qfloor x) as ->.
  { unfold int_of_float. destruct x as [n d]. simpl. apply Z.quot_div_nonneg; [|done].
    unfold Qle in Hx. simpl in Hx. lia. }
  split; [apply Qfloor_le|]. change 1%Q with (inject_Z 1).
  rewrite <- inject_Z_plus. apply Qlt_floor.
Qed.



(** ** Several redemptions of one token *)



Lemma known_id_frame sheet_name id self self' :
  spreadsheet self' !! sheet_name = spreadsheet self !! sheet_name ->
  known_id sheet_name id self -> known_id sheet_name id self'.
Proof.
  intros Hs (h & headers & rows & i & row & Hrows & Hfind).
  exists h, headers, rows, i, row. by rewrite Hs.
Qed.



(** ** No double attendance *)



Lemma run_healthy {A} (p : prog A) self r self' :
  run p self = (r, self') -> healthy self -> healthy self'.
Proof.
  intros H [Hc Hf]. split.
  - by rewrite (run_is_connected _ _ _ _ H).
  - by apply (run_faults_nil _ _ _ _ H).
Qed.









(** A failed read of the attendance log lets a second attendance through:
    the scan answers the empty list and the row is appended. *)
Lemma failed_scan_admits_duplicate :
  let row := ["rec-0"; "P001"; "A101"; "2026-01-10T01:00:00+00:00"; "QR_CODE"; "scanner1"; "TRUE"] in
  let self :=
    sample [token_row "uuid-1" "P001" "A101" "deviceA" 1700000015] [row]
      [false; false; false; false; false; true] in
  exists resp s1,
    run (check_in (scan "uuid-1" "A101") (inject_Z 1700000005) dt0 "rec-1" dt1) self =
      (Return resp, s1) /\
    spreadsheet s1 !! "Attendance_Log" =
      Some [ATTENDANCE_LOG_HEADERS; row;
            ["rec-1"; "P001"; "A101"; isoformat dt0; "QR_CODE"; "scanner1"; "TRUE"]].
Proof. eexists _, _. split; vm_compute; reflexivity. Qed.

(** ** Further behaviour of the routes *)

(** A route is not entered when the manager is not connected. *)
Lemma check_in_route_not_connected request time_time utc_now record_id local_now self :
  is_connected self = false ->
  run (check_in_route request time_time utc_now record_id local_now) self =
  (Raise ServiceUnavailable, self).
Proof.
  intros Hc. unfold check_in_route. rewrite run_bind.
  assert (run get_sheets_manager self = (Raise ServiceUnavailable, self)) as ->; [|done].
  unfold get_sheets_manager. simpl. by rewrite Hc.
Qed.

Lemma check_in_route_connected request time_time utc_now record_id local_now self :
  is_connected self = true ->
  run (check_in_route request time_time utc_now record_id local_now) self =
  run (check_in request time_time utc_now record_id local_now) self.
Proof.
  intros Hc. unfold check_in_route. rewrite run_bind.
  assert (run get_sheets_manager self = (Return tt, self)) as ->; [|done].
  unfold get_sheets_manager. simpl. by rewrite Hc.
Qed.

(** The attendance is recorded and the caller still gets an error when the
    lookup of the participant fails after the append: [find_record_by_id]
    answers [None] and [participant_data.get] raises. *)
Lemma lookup_failure_after_append :
  let self :=
    sample [sample_token] []
      [false; false; false; false; false; false; false; false; false; true] in
  exists s1,
    run (check_in (scan "uuid-1" "A101") (inject_Z 1700000005) dt0 "rec-1" dt1) self =
      (Raise AttributeError, s1) /\
    spreadsheet s1 !! "Attendance_Log" =
      Some [ATTENDANCE_LOG_HEADERS;
            ["rec-1"; "P001"; "A101"; isoformat dt0; "QR_CODE"; "scanner1"; "TRUE"]].
Proof. eexists. split; vm_compute; reflexivity. Qed.

(** Why [proper] is asked of a redemption: [find] searches the header row
    too, so the token [token_uuid] is found on row 1, that row is deleted,
    and the next token, valid and in time, is read against the wrong headers
    and rejected as expired. *)
Lemma header_row_deleted :
  let rd := sample_redemption "token_uuid" "rec-0" 1700000004 in
  let rd' := sample_redemption "uuid-1" "rec-1" 1700000005 in
  exists s1,
    redeem_all [rd; rd'] sample_store = ([Raise InvalidOrUsedToken; Raise Expired], s1) /\
    spreadsheet (snd (run (redeem rd) sample_store)) !! "Qr_Tokens" = Some [sample_token].
Proof. eexists. split; vm_compute; reflexivity. Qed.

(** ** The reads of the manager *)

Lemma run_call {B} (c : gspread B) self : run (call c) self = handle c self.
Proof. unfold call. simpl. destruct (handle c self) as [[b|e] s]; reflexivity. Qed.





(** ** A token from its issue to its redemption *)

Lemma manager_eq (s1 s2 : SheetsManager) :
  is_connected s1 = is_connected s2 -> spreadsheet s1 = spreadsheet s2 ->
  faults s1 = faults s2 -> s1 = s2.
Proof. destruct s1, s2. simpl. by intros -> -> ->. Qed.

(** The run of [generate_qr_token] on a healthy manager that knows the
    participant and the agenda item. *)
Lemma generate_qr_token_healthy request uuid4 time_time self rows :
  let row :=
    token_row uuid4 (TokenRequest.participant_id request)
      (TokenRequest.agenda_item_id request) (TokenRequest.device_id request)
      (int_of_float (time_time + inject_Z QR_CODE_EXP_SECONDS)) in
  healthy self ->
  known_id "Participants" (TokenRequest.participant_id request) self ->
  known_id "Agenda_Items" (TokenRequest.agenda_item_id request) self ->
  spreadsheet self !! "Qr_Tokens" = Some rows ->
  run (generate_qr_token request uuid4 time_time) self =
  (Return {| TokenResponse.status := "success";
             TokenResponse.qr_code_token := uuid4;
             TokenResponse.expires_in := QR_CODE_EXP_SECONDS |},
   set_spreadsheet (<["Qr_Tokens" := rows ++ [row]]> (spreadsheet self)) self).
Proof.
  intros row Hh Hkp Hka Htok.
  destruct (run (generate_qr_token request uuid4 time_time) self) as [r s1] eqn:H.
  pose proof (generate_qr_token_inv _ _ _ _ _ _ H) as Hinv.
  pose proof (run_healthy _ _ _ _ H Hh) as [Hc1 Hf1].
  assert (exists resp, r = Return resp) as [resp ->].
  { revert H. unfold generate_qr_token.
    destruct (find_record_by_id_known _ _ _ Hh Hkp) as (recp & Hp & Htp).
    rewrite run_bind. rewrite Hp, Htp. cbn [negb].
    destruct (find_record_by_id_known _ _ _ Hh Hka) as (reca & Ha & Hta).
    rewrite run_bind. rewrite Ha, Hta. cbn [negb]. cbv zeta.
    rewrite run_bind.
    fold (token_payload_of request uuid4
            (int_of_float (time_time + inject_Z QR_CODE_EXP_SECONDS))).
    destruct (add_qr_token_ok request uuid4
                (int_of_float (time_time + inject_Z QR_CODE_EXP_SECONDS)) _ _ Hh Htok)
      as (s3 & ->).
    intros [= <- _]. eauto. }
  destruct Hinv as (-> & rows' & Hrows' & Hs1).
  rewrite Htok in Hrows'. injection Hrows' as <-.
  f_equal. apply manager_eq; simpl; [by rewrite Hc1, (proj1 Hh)|done|by rewrite Hf1, (proj2 Hh)].
Qed.

Lemma list_find_snoc_new {A} (P : A -> Prop) `{!forall x, Decision (P x)} (l : list A) x :
  list_find P l = None -> P x -> list_find P (l ++ [x]) = Some (length l, x).
Proof.
  intros Hnone Hx. apply list_find_app_Some. right. split; [done|]. split; [done|].
  rewrite Nat.sub_diag. simpl. by rewrite decide_True.
Qed.

Lemma delete_snoc {A} (l : list A) x : delete (length l) (l ++ [x]) = l.
Proof. induction l as [|y l IH]; [done|]. simpl. by rewrite IH. Qed.

(** The redemption of a token that was just issued, on a healthy manager. *)
Lemma issue_then_check_in request uuid4 t1 scan_request t2 utc_now record_id local_now
    self tokens log :
  let p := TokenRequest.participant_id request in
  let a := TokenRequest.agenda_item_id request in
  let e := int_of_float (t1 + inject_Z QR_CODE_EXP_SECONDS) in
  let s_issued :=
    set_spreadsheet
      (<["Qr_Tokens" := (QR_TOKENS_HEADERS :: tokens) ++
                         [token_row uuid4 p a (TokenRequest.device_id request) e]]>
         (spreadsheet self)) self in
  let s_consumed :=
    set_spreadsheet (<["Qr_Tokens" := QR_TOKENS_HEADERS :: tokens]> (spreadsheet s_issued))
      s_issued in
  healthy self ->
  spreadsheet self !! "Qr_Tokens" = Some (QR_TOKENS_HEADERS :: tokens) ->
  spreadsheet self !! "Attendance_Log" = Some (ATTENDANCE_LOG_HEADERS :: log) ->
  known_id "Participants" p self -> known_id "Agenda_Items" a self ->
  list_find (cell_is 1 uuid4) (QR_TOKENS_HEADERS :: tokens) = None ->
  CheckInRequest.qr_code_token scan_request = uuid4 ->
  CheckInRequest.agenda_item_id scan_request = a ->
  ~ Exists (pair_is p a) log ->
  run (generate_qr_token request uuid4 t1) self =
    (Return {| TokenResponse.status := "success";
               TokenResponse.qr_code_token := uuid4;
               TokenResponse.expires_in := QR_CODE_EXP_SECONDS |}, s_issued) /\
  exists participant_data s2,
    run (check_in scan_request t2 utc_now record_id local_now) s_issued =
      (if time_after t2 e then (Raise Expired, s_consumed)
       else (Return (success_of (PStr p) participant_data local_now), s2)) /\
    spreadsheet s2 =
      <["Attendance_Log" :=
          (ATTENDANCE_LOG_HEADERS :: log) ++
          [cell_of <$> log_data_of scan_request (PStr p) utc_now record_id]]>
        (spreadsheet s_consumed) /\
    run (find_record_by_id "Participants" (PStr p) 1) s2 =
      (Return (Some participant_data), s2).
Proof.
  intros p a e s_issued s_consumed Hh Htok Hlog Hkp Hka Hnew Htoken Hagenda Hnodup.
  split.
  { by apply generate_qr_token_healthy. }
  assert (healthy s_issued) as Hh1 by by apply healthy_set_spreadsheet.
  apply list_find_None, Forall_cons in Hnew. destruct Hnew as [Hhd Hnew'].
  assert (uuid4 <> "token_uuid") as Hne by (intros ->; by apply Hhd).
  apply (proj2 (list_find_None _ _)) in Hnew'.
  pose proof (check_in_healthy scan_request t2 utc_now record_id local_now s_issued
                (tokens ++ [token_row uuid4 p a (TokenRequest.device_id request) e]) log
                (length tokens) uuid4 p a (TokenRequest.device_id request) e Hh1) as Hrun.
  cbv zeta in Hrun. rewrite Htoken in Hrun.
  rewrite delete_snoc in Hrun. fold s_consumed in Hrun.
  specialize (Hrun ltac:(unfold s_issued; simpl; by rewrite lookup_insert_eq)
                   ltac:(unfold s_issued; simpl; by rewrite lookup_insert_ne)
                   Hne
                   ltac:(by apply list_find_snoc_new)).
  rewrite Hagenda in Hrun.
  rewrite (bool_decide_eq_true_2 _ (eq_refl a)), (bool_decide_eq_false_2 _ Hnodup) in Hrun.
  cbn [negb] in Hrun.
  match type of Hrun with context [run (find_record_by_id _ _ _) ?s] => set (s2 := s) in * end.
  assert (healthy s2) as Hh2 by (by do 2 apply healthy_set_spreadsheet).
  assert (known_id "Participants" p s2) as Hkp2.
  { eapply known_id_frame; [|exact Hkp]. unfold s2, s_consumed, s_issued. simpl.
    by rewrite !lookup_insert_ne. }
  destruct (find_record_by_id_known _ _ _ Hh2 Hkp2) as (rec & Hrec & _).
  rewrite Hrec in Hrun.
  exists rec, s2. split; [|done].
  exact Hrun.
Qed.

Lemma token_lifetime t1 :
  (0 <= t1)%Q ->
  let e := int_of_float (t1 + inject_Z QR_CODE_EXP_SECONDS) in
  (forall t2, (t2 <= t1 + 14)%Q -> time_after t2 e = false) /\
  (forall t2, (t1 + 15 < t2)%Q -> time_after t2 e = true).
Proof.
  intros Ht1 e.
  destruct (int_of_float_bounds (t1 + inject_Z QR_CODE_EXP_SECONDS)) as [Hlo Hhi].
  { change (inject_Z QR_CODE_EXP_SECONDS) with 15%Q. lra. }
  fold e in Hlo, Hhi. change (inject_Z QR_CODE_EXP_SECONDS) with 15%Q in Hlo, Hhi.
  split; intros t2 Ht2.
  - destruct (time_after t2 e) eqn:Hafter; [|done].
    apply time_after_iff in Hafter. lra.
  - apply time_after_iff. lra.
Qed.

(** X5.  A token is good for at least 14 seconds: on a healthy manager that knows
    the participant and the agenda item, a token issued at [t1] under a new
    text and presented at any [t2 <= t1 + 14] for its agenda item, by a
    participant not yet in the log for it, is accepted; the token row is
    gone again and the attendance is the last row of the log. *)
Theorem issued_token_is_redeemable request uuid4 t1 scan_request t2 utc_now record_id
    local_now self tokens log :
  let p := TokenRequest.participant_id request in
  let a := TokenRequest.agenda_item_id request in
  healthy self ->
  spreadsheet self !! "Qr_Tokens" = Some (QR_TOKENS_HEADERS :: tokens) ->
  spreadsheet self !! "Attendance_Log" = Some (ATTENDANCE_LOG_HEADERS :: log) ->
  known_id "Participants" p self -> known_id "Agenda_Items" a self ->
  list_find (cell_is 1 uuid4) (QR_TOKENS_HEADERS :: tokens) = None ->
  CheckInRequest.qr_code_token scan_request = uuid4 ->
  CheckInRequest.agenda_item_id scan_request = a ->
  ~ Exists (pair_is p a) log ->
  (0 <= t1)%Q -> (t2 <= t1 + 14)%Q ->
  exists resp1 s1 resp2 s2,
    run (generate_qr_token request uuid4 t1) self = (Return resp1, s1) /\
    TokenResponse.qr_code_token resp1 = uuid4 /\
    run (check_in scan_request t2 utc_now record_id local_now) s1 = (Return resp2, s2) /\
    CheckInResponse.participant_id resp2 = PStr p /\
    spreadsheet s2 !! "Qr_Tokens" = Some (QR_TOKENS_HEADERS :: tokens) /\
    spreadsheet s2 !! "Attendance_Log" =
      Some (ATTENDANCE_LOG_HEADERS :: log ++
            [cell_of <$> log_data_of scan_request (PStr p) utc_now record_id]).
Proof.
  intros p a Hh Htok Hlog Hkp Hka Hnew Htoken Hagenda Hnodup Ht1 Ht2.
  destruct (issue_then_check_in request uuid4 t1 scan_request t2 utc_now record_id local_now
              self tokens log Hh Htok Hlog Hkp Hka Hnew Htoken Hagenda Hnodup)
    as (Hissue & pd & s2 & Hscan & Hs2 & _).
  rewrite (proj1 (token_lifetime t1 Ht1) t2 Ht2) in Hscan.
  eexists _, _, _, s2. split; [exact Hissue|]. split; [done|]. split; [exact Hscan|].
  split; [done|]. rewrite Hs2. simpl.
  rewrite lookup_insert_ne by done. rewrite lookup_insert_eq.
  by rewrite lookup_insert_eq.
Qed.


(** ** Failures of the store during a redemption *)

(** A read of all records whose first or second remote call fails. *)
Lemma get_all_records_fault sheet_name self n rest :
  is_connected self = true -> is_Some (spreadsheet self !! sheet_name) ->
  (n < 2)%nat -> faults self = replicate n false ++ true :: rest ->
  run (get_all_records sheet_name) self = (Return [], set_faults rest self).
Proof.
  intros Hc [rows Hrows] Hn Hf. unfold get_all_records, get_worksheet.
  destruct n as [|[|n]]; [| |lia]; simpl in Hf;
    repeat (progress (simpl; unfold remote, with_sheet; rewrite ?Hc, ?Hf, ?Hrows)); done.
Qed.

(** X7.  The duplicate test fails open.  Once the token is consumed and the
    checks of expiry and agenda item have passed, a read of the attendance
    log that fails (its first or second call) is taken for an empty log: the
    redemption is not reported as a duplicate and its row is appended to the
    log, whatever the log holds, also a record of the same participant and
    agenda item. *)
Theorem scan_failure_admits_duplicate
    request time_time utc_now record_id local_now self token_data s1 expires_at log n :
  let p_id := dict_get token_data "participant_id" in
  let a_id_token := dict_get token_data "agenda_item_id" in
  run (consume_qr_token (CheckInRequest.qr_code_token request)) self =
    (Return (Some token_data), s1) ->
  token_data !! "expires_at" = Some (PInt expires_at) ->
  time_after time_time expires_at = false ->
  a_id_token = PStr (CheckInRequest.agenda_item_id request) ->
  spreadsheet s1 !! "Attendance_Log" = Some log ->
  (n < 2)%nat -> faults s1 = replicate n false ++ [true] ->
  exists r s2,
    run (check_in request time_time utc_now record_id local_now) self = (r, s2) /\
    r <> Raise DuplicateCheckIn /\
    spreadsheet s2 !! "Attendance_Log" =
      Some (log ++ [cell_of <$> log_data_of request p_id utc_now record_id]).
Proof.
  intros p_id a_id_token Hconsume Hexp Hafter Hagenda Hlog Hn Hf.
  destruct (consume_qr_token_inv _ _ _ _ Hconsume) as (found & [= <-] & Hc & _).
  pose proof (run_is_connected _ _ _ _ Hconsume) as Hc1. rewrite Hc in Hc1.
  unfold check_in. rewrite run_bind, Hconsume.
  assert (truthy (Some token_data) = true) as ->.
  { simpl. apply negb_true_iff, bool_decide_eq_false. intros ->. done. }
  cbn [negb]. unfold dict_item. rewrite Hexp. cbn [bind]. rewrite Hafter.
  fold a_id_token p_id. rewrite Hagenda, bool_decide_eq_true_2 by done. cbn [negb].
  rewrite run_bind, (get_all_records_fault _ _ n [] Hc1 ltac:(eauto) Hn Hf).
  cbn [already_checked_in existsb].
  set (s1' := set_faults [] s1).
  assert (healthy s1') as Hh by done.
  rewrite run_bind.
  rewrite (append_row_ok "Attendance_Log" _ s1' log (proj1 Hh) (proj2 Hh) Hlog).
  fold (log_data_of request p_id utc_now record_id).
  rewrite run_bind.
  match goal with |- context [run (find_record_by_id _ _ _) ?s] => set (s2 := s) end.
  destruct (run (find_record_by_id "Participants" p_id 1) s2) as [rl s3] eqn:Hl.
  destruct (find_record_by_id_inv _ _ _ _ _ _ Hl) as (Hs3 & found & -> & _).
  assert (spreadsheet s3 !! "Attendance_Log" =
            Some (log ++ [cell_of <$> log_data_of request p_id utc_now record_id])) as Hlog3.
  { rewrite Hs3. unfold s2. simpl. by rewrite lookup_insert_eq. }
  destruct found as [participant_data|]; eexists _, s3; (split; [reflexivity|]); done.
Qed.

(** X8.  A token whose participant is not in the worksheet of the participants
    (any more): on a healthy manager the redemption passes every check and
    appends the attendance row, and then fails on the name of the
    participant with [AttributeError]; the attendance stays recorded. *)
Theorem unknown_participant_is_recorded request time_time utc_now record_id local_now self
    tokens log i t p a d e :
  let token := CheckInRequest.qr_code_token request in
  healthy self ->
  spreadsheet self !! "Qr_Tokens" = Some (QR_TOKENS_HEADERS :: tokens) ->
  spreadsheet self !! "Attendance_Log" = Some (ATTENDANCE_LOG_HEADERS :: log) ->
  token <> "token_uuid" ->
  list_find (cell_is 1 token) tokens = Some (i, token_row t p a d e) ->
  time_after time_time e = false ->
  a = CheckInRequest.agenda_item_id request ->
  ~ Exists (pair_is p a) log ->
  unknown_id "Participants" p self ->
  exists s1,
    run (check_in request time_time utc_now record_id local_now) self =
      (Raise AttributeError, s1) /\
    spreadsheet s1 !! "Attendance_Log" =
      Some (ATTENDANCE_LOG_HEADERS :: log ++
            [cell_of <$> log_data_of request (PStr p) utc_now record_id]) /\
    spreadsheet s1 !! "Qr_Tokens" = Some (QR_TOKENS_HEADERS :: delete i tokens).
Proof.
  intros token Hh Htok Hlog Hne Hfind Hafter Hagenda Hnodup Hunknown.
  rewrite (check_in_healthy _ _ _ _ _ _ tokens log i t p a d e Hh Htok Hlog Hne Hfind).
  rewrite Hafter, (bool_decide_eq_true_2 _ Hagenda), (bool_decide_eq_false_2 _ Hnodup).
  cbn [negb].
  match goal with |- context [run (find_record_by_id _ _ _) ?s] => set (s2 := s) end.
  destruct (find_record_by_id_unknown "Participants" p s2) as (s3 & -> & Hs3).
  { intros rows. unfold s2. simpl. rewrite !lookup_insert_ne by done. apply Hunknown. }
  exists s3. split; [done|]. rewrite Hs3. unfold s2. simpl.
  rewrite lookup_insert_eq. split; [done|].
  rewrite lookup_insert_ne by done. by rewrite lookup_insert_eq.
Qed.


(** ** The header rows *)


(** X11.  The header text [id] passes for an identifier: on a healthy manager
    whose worksheets of participants and agenda items have their headers, a
    token is issued to the participant [id] for the agenda item [id]. *)
Theorem header_text_passes_as_id request uuid4 time_time self participants agenda_items rows :
  healthy self ->
  spreadsheet self !! "Participants" = Some (PARTICIPANTS_HEADERS :: participants) ->
  spreadsheet self !! "Agenda_Items" = Some (AGENDA_ITEMS_HEADERS :: agenda_items) ->
  spreadsheet self !! "Qr_Tokens" = Some rows ->
  TokenRequest.participant_id request = "id" ->
  TokenRequest.agenda_item_id request = "id" ->
  exists resp s1,
    run (generate_qr_token request uuid4 time_time) self = (Return resp, s1) /\
    TokenResponse.qr_code_token resp = uuid4 /\
    spreadsheet s1 !! "Qr_Tokens" =
      Some (rows ++ [token_row uuid4 "id" "id" (TokenRequest.device_id request)
                       (int_of_float (time_time + inject_Z QR_CODE_EXP_SECONDS))]).
Proof.
  intros Hh Hp Ha Htok Hpid Haid.
  assert (known_id "Participants" (TokenRequest.participant_id request) self) as Hkp.
  { rewrite Hpid. by exists "id", (tail PARTICIPANTS_HEADERS), participants, 0%nat,
      PARTICIPANTS_HEADERS. }
  assert (known_id "Agenda_Items" (TokenRequest.agenda_item_id request) self) as Hka.
  { rewrite Haid. by exists "id", (tail AGENDA_ITEMS_HEADERS), agenda_items, 0%nat,
      AGENDA_ITEMS_HEADERS. }
  rewrite (generate_qr_token_healthy request uuid4 time_time self rows Hh Hkp Hka Htok).
  eexists _, _. split; [done|]. split; [done|]. simpl.
  by rewrite lookup_insert_eq, Hpid, Haid.
Qed.

(** ** A rejected scan uses the token up *)


(** ** New participant identifiers *)











Lemma id_numbers_no_call participants self :
  snd (run (id_numbers participants) self) = self.
Proof.
  induction participants as [|p ps IH]; [done|].
  cbn [id_numbers]. unfold dict_get_default, dict_item.
  destruct (p !! "id") as [[|ident|z]|]; cbv [default from_option id]; try done.
  cbn [startswith bind]. destruct (String.prefix "P" ident); [|done].
  destruct ident as [|c digits]; cbn [from_1 bind py_int];
    (destruct (int_of_str _); [|done]); cbn [bind]; rewrite run_bind;
    destruct (run (id_numbers ps) self) as [[ns|e] s]; done.
Qed.

Lemma generate_new_participant_id_inv self r s1 :
  run generate_new_participant_id self = (r, s1) -> spreadsheet s1 = spreadsheet self.
Proof.
  unfold generate_new_participant_id. rewrite run_bind.
  destruct (run (get_all_records "Participants") self) as [rp s0] eqn:Hp.
  destruct (get_all_records_inv _ _ _ _ Hp) as (Hs0 & participants & ->).
  case_bool_decide; [by intros [= <- <-]|].
  rewrite run_bind. pose proof (id_numbers_no_call participants s0) as Hpure.
  destruct (run (id_numbers participants) s0) as [[ns|e] s]; simpl in Hpure; subst s;
    [|by intros [= <- <-]].
  case_bool_decide; [by intros [= <- <-]|].
  destruct ns as [|x xs]; [done|]. by intros [= <- <-].
Qed.

(** The loop over the participants makes no call; it lets the request pass
    exactly when no record carries its e-mail address or phone number. *)
Lemma reject_registered_inv participants request self :
  exists r, run (reject_registered participants request) self = (r, self) /\
    match r with
    | Return _ =>
        forall p, p ∈ participants ->
          dict_get p "email" <> PStr (ParticipantSignupRequest.email request) /\
          dict_get p "phone_number" <> PStr (ParticipantSignupRequest.phone_number request)
    | Raise e => e = EmailRegistered \/ e = PhoneRegistered
    end.
Proof.
  induction participants as [|p ps IH].
  - exists (Return tt). split; [done|]. intros p Hp. by apply elem_of_nil in Hp.
  - cbn [reject_registered].
    case_bool_decide as Hemail; [exists (Raise EmailRegistered); split; [done|by left]|].
    case_bool_decide as Hphone; [exists (Raise PhoneRegistered); split; [done|by right]|].
    destruct IH as (r & Hr & Hps). exists r. split; [done|].
    destruct r as [[]|e]; [|done].
    intros p' Hp'. apply elem_of_cons in Hp' as [->|Hp']; [done|by apply Hps].
Qed.

(** ** Signing up *)

Arguments generate_new_participant_id : simpl never.

Lemma participant_signup_inv request hashed_password str_e self r s1 :
  run (participant_signup request hashed_password str_e) self = (r, s1) ->
  match r with
  | Return resp =>
      exists new_id s0,
        resp = signup_answer new_id /\
        (String.length (ParticipantSignupRequest.password request) <? 6)%nat = false /\
        (exists participants s,
           run (get_all_records "Participants") self = (Return participants, s) /\
           run (reject_registered participants request) s = (Return tt, s) /\
           run generate_new_participant_id s = (Return new_id, s0)) /\
        if is_connected self then
          exists rows, spreadsheet self !! "Participants" = Some rows /\
            spreadsheet s1 =
              <["Participants" := rows ++ [signup_row request new_id hashed_password]]>
                (spreadsheet self)
        else spreadsheet s1 = spreadsheet self
  | Raise e => spreadsheet s1 = spreadsheet self
  end.
Proof.
  unfold participant_signup.
  destruct (String.length _ <? 6)%nat eqn:Hlen; [by intros [= <- <-]|].
  rewrite run_bind.
  destruct (run (get_all_records "Participants") self) as [rp s] eqn:Hp.
  destruct (get_all_records_inv _ _ _ _ Hp) as (Hs & participants & ->).
  rewrite run_bind.
  destruct (reject_registered_inv participants request s) as (rr & Hr & _). rewrite Hr.
  destruct rr as [[]|e]; [|by intros [= <- <-]].
  rewrite run_bind.
  destruct (run generate_new_participant_id s) as [[new_id|e] s0] eqn:Hid;
    pose proof (generate_new_participant_id_inv _ _ _ Hid) as Hs0;
    [|intros [= <- <-]; congruence].
  rewrite run_bind, run_try_except.
  destruct (run (append_row "Participants" _) s0) as [ra s2] eqn:Ha.
  pose proof (append_row_inv _ _ _ _ _ Ha) as Hinv.
  rewrite (run_is_connected _ _ _ _ Hid), (run_is_connected _ _ _ _ Hp) in Hinv.
  destruct ra as [written|e].
  - cbn [run]. intros [= <- <-]. exists new_id, s0. split; [done|]. split; [done|].
    split; [by eauto 6|].
    destruct (is_connected self).
    + destruct Hinv as (rows & Hrows & Hs2). exists rows.
      rewrite Hs0, Hs in Hrows. split; [done|]. rewrite Hs2, Hs0, Hs. done.
    + congruence.
  - cbn [run]. intros [= <- <-]. destruct Hinv as (_ & ->). congruence.
Qed.

Lemma get_sheets_manager_run self :
  run get_sheets_manager self =
  (if is_connected self then Return tt else Raise ServiceUnavailable, self).
Proof. unfold get_sheets_manager. simpl. by destruct (is_connected self). Qed.

(** X14.  A sign-up writes one row or nothing: whatever the store does, a
    sign-up that is answered has appended exactly the row of the new
    participant, under the identifier of the answer, to the worksheet of the
    participants, and a sign-up that fails, for any reason, has left every
    worksheet as it was. *)
Theorem signup_writes_one_row_or_nothing request hashed_password str_e self r s1 :
  run (participant_signup_route request hashed_password str_e) self = (r, s1) ->
  match r with
  | Return resp =>
      exists rows,
        spreadsheet self !! "Participants" = Some rows /\
        spreadsheet s1 =
          <["Participants" :=
              rows ++ [signup_row request (ParticipantSignupResponse.participant_id resp)
                         hashed_password]]>
            (spreadsheet self)
  | Raise e => spreadsheet s1 = spreadsheet self
  end.
Proof.
  unfold participant_signup_route. rewrite run_bind, get_sheets_manager_run.
  destruct (is_connected self) eqn:Hc; [|by intros [= <- <-]].
  intros H. apply participant_signup_inv in H.
  destruct r as [resp|e]; [|done].
  destruct H as (new_id & s0 & -> & _ & _ & H). by rewrite Hc in H.
Qed.

(** ** Logging in *)






(** On a connected manager the lookup of an administrator is the lookup of
    a record of the worksheet [Admins] by its second column. *)
Lemma find_admin_by_username_connected username self :
  is_connected self = true ->
  run (find_admin_by_username username) self =
  run (find_record_by_id "Admins" (PStr username) 2) self.
Proof.
  intros Hc. unfold find_admin_by_username, find_record_by_id.
  rewrite !run_bind, run_call. cbn [handle]. by rewrite Hc.
Qed.

Lemma find_admin_by_username_inv username self r s1 :
  run (find_admin_by_username username) self = (r, s1) ->
  spreadsheet s1 = spreadsheet self /\ exists found, r = Return found.
Proof.
  destruct (is_connected self) eqn:Hc.
  - rewrite find_admin_by_username_connected by done. intros H.
    destruct (find_record_by_id_inv _ _ _ _ _ _ H) as (Hs & found & -> & _). eauto.
  - unfold find_admin_by_username. rewrite run_bind, run_call. cbn [handle].
    rewrite Hc. cbn [negb]. destruct (String.eqb _ _); intros [= <- <-]; eauto.
Qed.

(** X17.  A login never writes: whatever the manager and the store do, and
    whatever its outcome, [participant_login] and [admin_login] leave every
    worksheet as it was. *)
Theorem logins_never_write self :
  (forall request checkpw jwt_encode time_time,
     spreadsheet (snd (run (participant_login request checkpw jwt_encode time_time) self)) =
     spreadsheet self) /\
  (forall request checkpw jwt_encode time_time,
     spreadsheet (snd (run (admin_login request checkpw jwt_encode time_time) self)) =
     spreadsheet self).
Proof.
  split; intros request checkpw jwt_encode time_time.
  - unfold participant_login. rewrite run_bind.
    destruct (run (get_all_records "Participants") self) as [rp s] eqn:Hp.
    destruct (get_all_records_inv _ _ _ _ Hp) as (Hs & participants & ->).
    destruct (next_with_email _ _) as [p|]; [|done].
    destruct (negb (truthy (Some p))); [done|].
    destruct (negb (py_bool _)); [done|].
    destruct (dict_get p "login_hash") as [|h|z]; try done.
    cbn [encode bind]. destruct (checkpw _ h) as [[|]|e]; done.
  - unfold admin_login. rewrite run_bind.
    destruct (run (find_admin_by_username _) self) as [ra s] eqn:Ha.
    destruct (find_admin_by_username_inv _ _ _ _ Ha) as (Hs & found & ->).
    destruct found as [admin_data|]; [|done].
    destruct (negb (truthy (Some admin_data))); [done|].
    destruct (negb (py_bool _)); [done|].
    destruct (dict_get admin_data "password_hash") as [|h|z]; try done.
    cbn [encode bind]. destruct (checkpw _ h) as [[|]|e]; done.
Qed.

(** ** Failures of the store during sign-up and login *)





(** ** An identifier without a number *)





(** ** A manager that is not connected *)


(** X23.  Every route answers 503 on a manager that is not connected, without a
    call on the store and without a write: the branches of [SheetsManager]
    that simulate a write are not reached through a route. *)
Theorem routes_unavailable_when_not_connected self :
  is_connected self = false ->
  (forall request uuid4 time_time,
     run (generate_qr_token_route request uuid4 time_time) self =
       (Raise ServiceUnavailable, self)) /\
  (forall request time_time utc_now record_id local_now,
     run (check_in_route request time_time utc_now record_id local_now) self =
       (Raise ServiceUnavailable, self)) /\
  (forall request hashed_password str_e,
     run (participant_signup_route request hashed_password str_e) self =
       (Raise ServiceUnavailable, self)) /\
  (forall request checkpw jwt_encode time_time,
     run (participant_login_route request checkpw jwt_encode time_time) self =
       (Raise ServiceUnavailable, self)) /\
  (forall request checkpw jwt_encode time_time,
     run (admin_login_route request checkpw jwt_encode time_time) self =
       (Raise ServiceUnavailable, self)) /\
  (forall request hashed_password now_text today1 today2 str_e,
     initialize_db_route request hashed_password now_text today1 today2 str_e self =
       (Raise ServiceUnavailable, self)).
Proof.
  intros Hc.
  repeat split; intros;
    unfold generate_qr_token_route, check_in_route, participant_signup_route,
      participant_login_route, admin_login_route, initialize_db_route, and_then;
    rewrite ?run_bind, get_sheets_manager_run, Hc; reflexivity.
Qed.

(** ** The login of an administrator *)


(** ** The initialisation *)

Lemma spreadsheet_worksheet_healthy title self :
  healthy self ->
  spreadsheet_worksheet title self =
  (match spreadsheet self !! title with
   | Some _ => Return title
   | None => Raise WorksheetNotFound
   end, self).
Proof.
  intros [Hc Hf]. unfold spreadsheet_worksheet. cbn [handle]. rewrite remote_nil by done.
  by destruct (spreadsheet self !! title).
Qed.

(** One round of the loop on a healthy manager. *)
Lemma initialize_sheets_cons title headers definitions clear_data initialized_sheets self :
  healthy self ->
  initialize_sheets ((title, headers) :: definitions) clear_data initialized_sheets self =
  initialize_sheets definitions clear_data (initialized_sheets ++ [title])
    (set_spreadsheet
       (<[title := update_A1 headers
                     (if clear_data then [] else default [] (spreadsheet self !! title))]>
          (spreadsheet self)) self).
Proof.
  intros Hh. pose proof Hh as [Hc Hf]. cbn [initialize_sheets]. unfold and_then.
  rewrite spreadsheet_worksheet_healthy by done.
  unfold add_worksheet, clear, update, with_sheet.
  destruct (spreadsheet self !! title) as [rows|] eqn:Hrows; destruct clear_data;
    repeat (rewrite remote_nil by done; cbn [spreadsheet set_spreadsheet faults];
            rewrite ?Hrows, ?lookup_insert_eq);
    cbn [default from_option id]; f_equal;
    unfold set_spreadsheet; cbn [spreadsheet is_connected faults];
    by rewrite ?insert_insert_eq.
Qed.

Lemma initialize_sheets_healthy definitions clear_data initialized_sheets self :
  healthy self ->
  exists s1,
    initialize_sheets definitions clear_data initialized_sheets self =
      (Return (initialized_sheets ++ definitions.*1), s1) /\
    healthy s1 /\
    spreadsheet s1 =
      foldl (fun sheets '(title, headers) =>
               <[title := update_A1 headers
                            (if clear_data then [] else default [] (sheets !! title))]> sheets)
            (spreadsheet self) definitions.
Proof.
  revert initialized_sheets self.
  induction definitions as [|[title headers] definitions IH]; intros acc self Hh.
  - exists self. by rewrite app_nil_r.
  - rewrite initialize_sheets_cons by done.
    match goal with |- context [initialize_sheets _ _ _ ?s] => set (s0 := s) end.
    destruct (IH (acc ++ [title]) s0) as (s1 & -> & Hh1 & Hs1);
      [by apply healthy_set_spreadsheet|].
    exists s1. split; [by rewrite <- app_assoc|]. split; [done|]. by rewrite Hs1.
Qed.

(** A worksheet is looked up and rows are appended to it. *)
Lemma append_rows_healthy {A} title data (k : method A) self rows :
  healthy self -> spreadsheet self !! title = Some rows ->
  (let! ws := spreadsheet_worksheet title in
   let! _ := append_rows ws data in k) self =
  k (set_spreadsheet (<[title := rows ++ data]> (spreadsheet self)) self).
Proof.
  intros Hh Hrows. pose proof Hh as [Hc Hf]. unfold and_then.
  rewrite spreadsheet_worksheet_healthy, Hrows by done.
  unfold append_rows, with_sheet. rewrite remote_nil by done. by rewrite Hrows.
Qed.


(** The run of [initialize_system] on a healthy manager: every worksheet
    of the definitions holds its headers and its rows of step 2, every other
    worksheet is as it was. *)
Lemma initialize_system_healthy clear_data hashed_password now_text today1 today2 self :
  healthy self ->
  exists s1,
    initialize_system clear_data hashed_password now_text today1 today2 self =
      (Return (WORKSHEET_DEFINITIONS.*1), s1) /\
    healthy s1 /\
    (forall title headers, (title, headers) ∈ WORKSHEET_DEFINITIONS ->
       spreadsheet s1 !! title =
         Some (initialized_sheet clear_data hashed_password now_text today1 today2
                 (spreadsheet self) title headers)) /\
    (forall title, title ∉ WORKSHEET_DEFINITIONS.*1 ->
       spreadsheet s1 !! title = spreadsheet self !! title).
Proof.
  intros Hh. unfold initialize_system. rewrite (proj1 Hh). cbn [negb].
  unfold and_then at 1.
  destruct (initialize_sheets_healthy WORKSHEET_DEFINITIONS clear_data [] self Hh)
    as (s0 & -> & Hh0 & Hs0).
  cbn [foldl WORKSHEET_DEFINITIONS] in Hs0. rewrite !lookup_insert_ne in Hs0 by done.
  rewrite (append_rows_healthy "Admins" _ _ s0 _ Hh0) by (rewrite Hs0; lookup_sheets; done).
  match goal with |- context [set_spreadsheet ?m s0] => set (s1 := set_spreadsheet m s0) end.
  assert (healthy s1) as Hh1 by by apply healthy_set_spreadsheet.
  rewrite (append_rows_healthy "Participants" _ _ s1 _ Hh1)
    by (unfold s1; cbn [spreadsheet set_spreadsheet]; rewrite Hs0; lookup_sheets; done).
  match goal with |- context [set_spreadsheet ?m s1] => set (s2 := set_spreadsheet m s1) end.
  assert (healthy s2) as Hh2 by by apply healthy_set_spreadsheet.
  rewrite (append_rows_healthy "Events" _ _ s2 _ Hh2)
    by (unfold s2, s1; cbn [spreadsheet set_spreadsheet]; rewrite Hs0; lookup_sheets; done).
  match goal with |- context [set_spreadsheet ?m s2] => set (s3 := set_spreadsheet m s2) end.
  assert (healthy s3) as Hh3 by by apply healthy_set_spreadsheet.
  rewrite (append_rows_healthy "Agenda_Items" _ _ s3 _ Hh3)
    by (unfold s3, s2, s1; cbn [spreadsheet set_spreadsheet]; rewrite Hs0; lookup_sheets; done).
  match goal with |- context [set_spreadsheet ?m s3] => set (s4 := set_spreadsheet m s3) end.
  assert (healthy s4) as Hh4 by by apply healthy_set_spreadsheet.
  rewrite (append_rows_healthy "Registration" _ _ s4 _ Hh4)
    by (unfold s4, s3, s2, s1; cbn [spreadsheet set_spreadsheet]; rewrite Hs0; lookup_sheets;
        done).
  match goal with |- context [set_spreadsheet ?m s4] => set (s5 := set_spreadsheet m s4) end.
  exists s5. split; [done|]. split; [by apply healthy_set_spreadsheet|].
  split.
  - intros title headers Hin. unfold WORKSHEET_DEFINITIONS in Hin.
    repeat (apply elem_of_cons in Hin as [[= -> ->]|Hin]); [..|by apply elem_of_nil in Hin];
      unfold s5, s4, s3, s2, s1; cbn [spreadsheet set_spreadsheet]; rewrite Hs0;
      lookup_sheets; unfold initialized_sheet; try reflexivity;
      change (seed_rows _ _ _ _ _) with (@nil (list string)); by rewrite app_nil_r.
  - intros title Hnotin. unfold WORKSHEET_DEFINITIONS in Hnotin. cbn [fmap list_fmap fst] in Hnotin.
    rewrite !not_elem_of_cons in Hnotin. destruct_and!.
    unfold s5, s4, s3, s2, s1; cbn [spreadsheet set_spreadsheet]; rewrite Hs0.
    by rewrite !lookup_insert_ne by done.
Qed.

Lemma initialize_db_route_healthy request hashed_password now_text today1 today2 str_e self :
  healthy self ->
  InitializationRequest.secret_key request = INIT_MASTER_KEY ->
  initialize_db_route request hashed_password now_text today1 today2 str_e self =
  (Return initialization_answer,
   snd (initialize_system (InitializationRequest.clear_data request)
          hashed_password now_text today1 today2 self)).
Proof.
  intros Hh Hkey. unfold initialize_db_route, and_then.
  rewrite get_sheets_manager_run, (proj1 Hh). unfold initialize_db. rewrite Hkey.
  change (String.eqb INIT_MASTER_KEY INIT_MASTER_KEY) with true. cbn [negb].
  destruct (initialize_system_healthy (InitializationRequest.clear_data request)
              hashed_password now_text today1 today2 self Hh) as (s1 & -> & _).
  done.
Qed.

(** X25.  Initialising with [clear_data] starts over.  On a healthy manager, an
    initialisation with the right key and [clear_data] leaves in every
    worksheet of the definitions its headers and its rows of step 2,
    whatever the worksheet held: the attendance log and the token sheet are
    down to their headers. *)
Theorem initialization_with_clear_starts_over
    request hashed_password now_text today1 today2 str_e self :
  healthy self ->
  InitializationRequest.secret_key request = INIT_MASTER_KEY ->
  InitializationRequest.clear_data request = true ->
  exists s1,
    initialize_db_route request hashed_password now_text today1 today2 str_e self =
      (Return initialization_answer, s1) /\
    (forall title headers, (title, headers) ∈ WORKSHEET_DEFINITIONS ->
       spreadsheet s1 !! title =
         Some (headers :: seed_rows hashed_password now_text today1 today2 title)) /\
    spreadsheet s1 !! "Attendance_Log" = Some [ATTENDANCE_LOG_HEADERS] /\
    spreadsheet s1 !! "Qr_Tokens" = Some [QR_TOKENS_HEADERS].
Proof.
  intros Hh Hkey Hclear.
  rewrite (initialize_db_route_healthy _ _ _ _ _ _ _ Hh Hkey), Hclear.
  destruct (initialize_system_healthy true hashed_password now_text today1 today2 self Hh)
    as (s1 & -> & _ & Hsheets & _).
  exists s1. split; [done|]. split; [exact Hsheets|].
  split.
  - rewrite (Hsheets "Attendance_Log" ATTENDANCE_LOG_HEADERS); [done|].
    by apply (list_elem_of_lookup_2 WORKSHEET_DEFINITIONS 5%nat).
  - rewrite (Hsheets "Qr_Tokens" QR_TOKENS_HEADERS); [done|].
    by apply (list_elem_of_lookup_2 WORKSHEET_DEFINITIONS 6%nat).
Qed.

(** X26.  Initialising again adds the rows of step 2 again.  On a healthy
    manager, an initialisation with the right key and without [clear_data]
    keeps the rows of every worksheet that has its headers and appends the
    rows of step 2 below them, once more at every run. *)
Theorem initialization_adds_seed_rows_again
    request hashed_password now_text today1 today2 str_e self :
  healthy self ->
  InitializationRequest.secret_key request = INIT_MASTER_KEY ->
  InitializationRequest.clear_data request = false ->
  exists s1,
    initialize_db_route request hashed_password now_text today1 today2 str_e self =
      (Return initialization_answer, s1) /\
    forall title headers rows,
      (title, headers) ∈ WORKSHEET_DEFINITIONS ->
      spreadsheet self !! title = Some (headers :: rows) ->
      spreadsheet s1 !! title =
        Some (headers :: rows ++ seed_rows hashed_password now_text today1 today2 title).
Proof.
  intros Hh Hkey Hclear.
  rewrite (initialize_db_route_healthy _ _ _ _ _ _ _ Hh Hkey), Hclear.
  destruct (initialize_system_healthy false hashed_password now_text today1 today2 self Hh)
    as (s1 & -> & _ & Hsheets & _).
  exists s1. split; [done|]. intros title headers rows Hin Hrows.
  rewrite (Hsheets _ _ Hin). unfold initialized_sheet. rewrite Hrows.
  cbn [default from_option id update_A1]. by rewrite drop_all, app_nil_r.
Qed.

Lemma generate_qr_token_route_connected request uuid4 time_time self :
  is_connected self = true ->
  run (generate_qr_token_route request uuid4 time_time) self =
  run (generate_qr_token request uuid4 time_time) self.
Proof.
  intros Hc. unfold generate_qr_token_route.
  by rewrite run_bind, get_sheets_manager_run, Hc.
Qed.

(** X27.  From the initialisation to the first check-in.  On a healthy manager,
    after an initialisation with the right key and [clear_data], a token
    issued to the participant [P001] for the agenda item [A101] and scanned
    for that agenda item within 14 seconds is accepted: the answer names
    the participant of step 2 and the attendance is the one row of the
    log. *)
Theorem initialized_system_serves_check_in
    init_request hashed_password now_text today1 today2 str_e
    token_request uuid4 t1 scan_request t2 utc_now record_id local_now self :
  healthy self ->
  InitializationRequest.secret_key init_request = INIT_MASTER_KEY ->
  InitializationRequest.clear_data init_request = true ->
  TokenRequest.participant_id token_request = "P001" ->
  TokenRequest.agenda_item_id token_request = "A101" ->
  uuid4 <> "token_uuid" ->
  CheckInRequest.qr_code_token scan_request = uuid4 ->
  CheckInRequest.agenda_item_id scan_request = "A101" ->
  (0 <= t1)%Q -> (t2 <= t1 + 14)%Q ->
  exists s0 resp1 s1 resp2 s2,
    initialize_db_route init_request hashed_password now_text today1 today2 str_e self =
      (Return initialization_answer, s0) /\
    run (generate_qr_token_route token_request uuid4 t1) s0 = (Return resp1, s1) /\
    TokenResponse.qr_code_token resp1 = uuid4 /\
    run (check_in_route scan_request t2 utc_now record_id local_now) s1 = (Return resp2, s2) /\
    CheckInResponse.participant_name resp2 = PStr "王小明" /\
    CheckInResponse.participant_id resp2 = PStr "P001" /\
    spreadsheet s2 !! "Attendance_Log" =
      Some [ATTENDANCE_LOG_HEADERS;
            cell_of <$> log_data_of scan_request (PStr "P001") utc_now record_id].
Proof.
  intros Hh Hkey Hclear Hp Ha Hne Htoken Hagenda Ht1 Ht2.
  rewrite (initialize_db_route_healthy _ _ _ _ _ _ _ Hh Hkey), Hclear.
  destruct (initialize_system_healthy true hashed_password now_text today1 today2 self Hh)
    as (s0 & -> & Hh0 & Hsheets & _).
  assert (forall i title headers, WORKSHEET_DEFINITIONS !! i = Some (title, headers) ->
            spreadsheet s0 !! title =
              Some (headers :: seed_rows hashed_password now_text today1 today2 title))
    as Hsheet.
  { intros i title headers Hi. apply Hsheets. by apply list_elem_of_lookup_2 in Hi. }
  pose proof (Hsheet 1%nat _ _ eq_refl) as Hparticipants.
  pose proof (Hsheet 3%nat _ _ eq_refl) as Hagenda_items.
  pose proof (Hsheet 5%nat _ _ eq_refl) as Hlog.
  pose proof (Hsheet 6%nat _ _ eq_refl) as Htokens.
  assert (known_id "Participants" "P001" s0) as Hkp.
  { eexists _, _, _, 1%nat, _. split; [exact Hparticipants|]. reflexivity. }
  assert (known_id "Agenda_Items" "A101" s0) as Hka.
  { eexists _, _, _, 1%nat, _. split; [exact Hagenda_items|]. reflexivity. }
  rewrite <- Hp in Hkp. rewrite <- Ha in Hka.
  destruct (issue_then_check_in token_request uuid4 t1 scan_request t2 utc_now record_id
              local_now s0 [] [] Hh0 Htokens Hlog Hkp Hka)
    as (Hissue & pd & s2 & Hscan & Hs2 & Hlookup).
  { simpl. rewrite decide_False; [done|]. by intros [= ?]. }
  { done. }
  { by rewrite Ha. }
  { by intros ?%Exists_nil. }
  rewrite (proj1 (token_lifetime t1 Ht1) t2 Ht2) in Hscan.
  eexists s0, _, _, _, s2. split; [done|].
  split; [by rewrite generate_qr_token_route_connected by apply Hh0|].
  split; [done|].
  rewrite check_in_route_connected by (cbn [is_connected set_spreadsheet]; apply Hh0).
  split; [exact Hscan|].
  rewrite Hp in *.
  assert (pd = dict_zip PARTICIPANTS_HEADERS
                 ["P001"; "王小明"; "ming@test.com"; "0910123456"; "科技學院"; hashed_password])
    as ->.
  { destruct (find_record_by_id_inv _ _ _ _ _ _ Hlookup) as (_ & found & [= <-] & Hfound).
    destruct (Hfound pd eq_refl) as (q & rows & i & row & [= <-] & Hrows & Hfind & -> & _).
    rewrite Hs2 in Hrows. cbn [spreadsheet set_spreadsheet] in Hrows.
    rewrite !lookup_insert_ne in Hrows by done. rewrite Hparticipants in Hrows.
    injection Hrows as <-. by injection Hfind as <- <-. }
  split; [reflexivity|]. split; [reflexivity|].
  rewrite Hs2. by rewrite lookup_insert_eq.
Qed.

Lemma initialize_sheets_returns definitions clear_data initialized_sheets self l s1 :
  initialize_sheets definitions clear_data initialized_sheets self = (Return l, s1) ->
  l = initialized_sheets ++ definitions.*1.
Proof.
  revert initialized_sheets self.
  induction definitions as [|[title headers] definitions IH]; intros acc self.
  - intros [= <- <-]. by rewrite app_nil_r.
  - cbn [initialize_sheets]. unfold and_then.
    repeat match goal with
           | |- context [match ?m with (_, _) => _ end] =>
               lazymatch m with
               | initialize_sheets _ _ _ _ => fail
               | _ => destruct m as [[?|?] ?]; try discriminate
               end
           end.
    intros H. apply IH in H. by rewrite <- app_assoc in H.
Qed.

Lemma initialize_system_returns clear_data hashed_password now_text today1 today2 self l s1 :
  initialize_system clear_data hashed_password now_text today1 today2 self = (Return l, s1) ->
  l = WORKSHEET_DEFINITIONS.*1.
Proof.
  unfold initialize_system. destruct (negb (is_connected self)); [done|].
  unfold and_then at 1.
  destruct (initialize_sheets _ _ _ _) as [[l0|e] s0] eqn:Hsheets; [|done].
  apply initialize_sheets_returns in Hsheets. subst l0.
  unfold and_then.
  repeat match goal with
         | |- context [match ?m with (_, _) => _ end] =>
             destruct m as [[?|?] ?]; try discriminate
         end.
  by intros [= <- <-].
Qed.

(** X28.  The answers of the initialisation.  Whatever the manager and the store
    do, the route answers with the list of the worksheets of the
    definitions, or with 503 or 403 before any call on the store, or with
    500: no other exception leaves it. *)
Theorem initialize_db_answers request hashed_password now_text today1 today2 str_e self r s1 :
  initialize_db_route request hashed_password now_text today1 today2 str_e self = (r, s1) ->
  match r with
  | Return resp => resp = initialization_answer
  | Raise e =>
      (e = ServiceUnavailable /\ s1 = self) \/
      (e = WrongInitKey /\ s1 = self /\
       InitializationRequest.secret_key request <> INIT_MASTER_KEY) \/
      exists e0, e = InitializationFailed (str_e e0)
  end.
Proof.
  unfold initialize_db_route, and_then. rewrite get_sheets_manager_run.
  destruct (is_connected self); [|intros [= <- <-]; by left].
  unfold initialize_db.
  destruct (String.eqb _ _) eqn:Hkey; cbn [negb].
  2: { intros [= <- <-]. right. left. by apply String.eqb_neq in Hkey. }
  destruct (initialize_system _ _ _ _ _ self) as [[l|e] s] eqn:Hinit; intros [= <- <-].
  - apply initialize_system_returns in Hinit. by subst l.
  - right. right. by exists e.
Qed.

(** X29.  The initialisation is not undone.  On a connected manager that holds
    the worksheet [Admins], an initialisation with the right key and
    [clear_data] whose third call fails (the worksheet is found and cleared,
    the writing of its headers fails) is answered with 500, and the
    worksheet stays empty; the other worksheets are as they were. *)
Theorem failed_initialization_keeps_the_clearing
    request hashed_password now_text today1 today2 str_e self rows rest :
  is_connected self = true ->
  spreadsheet self !! "Admins" = Some rows ->
  faults self = false :: false :: true :: rest ->
  InitializationRequest.secret_key request = INIT_MASTER_KEY ->
  InitializationRequest.clear_data request = true ->
  exists s1,
    initialize_db_route request hashed_password now_text today1 today2 str_e self =
      (Raise (InitializationFailed (str_e APIError)), s1) /\
    spreadsheet s1 = <["Admins" := []]> (spreadsheet self).
Proof.
  intros Hc Hrows Hf Hkey Hclear.
  unfold initialize_db_route, and_then. rewrite get_sheets_manager_run, Hc.
  unfold initialize_db. rewrite Hkey, Hclear.
  change (String.eqb INIT_MASTER_KEY INIT_MASTER_KEY) with true. cbn [negb].
  unfold initialize_system. rewrite Hc. cbn [negb].
  unfold and_then at 1. cbn [initialize_sheets WORKSHEET_DEFINITIONS]. unfold and_then.
  unfold spreadsheet_worksheet, clear, update.
  repeat (progress (cbn [handle faults set_faults set_spreadsheet spreadsheet is_connected];
                    unfold remote, with_sheet; rewrite ?Hf, ?Hrows, ?lookup_insert_eq)).
  eexists. split; reflexivity.
Qed.

(** ** The theorems on the sample store *)


Lemma expiry_enforced_witness :
  exists s1,
    run (check_in (scan "uuid-1" "A101") (inject_Z 1700000016) dt0 "rec-1" dt1) sample_store =
      (Raise Expired, s1) /\
    spreadsheet s1 =
      <["Qr_Tokens" := QR_TOKENS_HEADERS :: delete 0%nat [sample_token]]>
        (spreadsheet sample_store).
Proof.
  apply (expiry_enforced (scan "uuid-1" "A101") (inject_Z 1700000016) dt0 "rec-1" dt1
           sample_store [sample_token] 0%nat "uuid-1" "P001" "A101" "deviceA" 1700000015).
  - split; reflexivity.
  - reflexivity.
  - discriminate.
  - reflexivity.
  - unfold Qlt. simpl. lia.
Defined.

Lemma sample_known_participant tokens log fs :
  known_id "Participants" "P001" (sample tokens log fs).
Proof. eexists _, _, _, _, _. split; vm_compute; reflexivity. Qed.





Lemma storage_failure_after_consumption_witness :
  let self :=
    sample [sample_token] [] [false; false; false; false; false; false; false; false; true] in
  exists e s3,
    run (check_in (scan "uuid-1" "A101") (inject_Z 1700000005) dt0 "rec-1" dt1) self =
      (Raise e, s3) /\
    StorageError e = true /\
    spreadsheet s3 !! "Qr_Tokens" = Some [QR_TOKENS_HEADERS] /\
    spreadsheet s3 !! "Attendance_Log" = Some [ATTENDANCE_LOG_HEADERS].
Proof.
  intros self.
  edestruct (storage_failure_after_consumption
               (scan "uuid-1" "A101") (inject_Z 1700000005) dt0 "rec-1" dt1 self)
    as (Hrun & Hstore & Hsheets & _).
  - vm_compute. reflexivity.
  - vm_compute. reflexivity.
  - vm_compute. reflexivity.
  - vm_compute. reflexivity.
  - vm_compute. reflexivity.
  - vm_compute. reflexivity.
  - vm_compute. reflexivity.
  - eexists _, _. split; [exact Hrun|]. split; [exact Hstore|].
    rewrite Hsheets. split; vm_compute; reflexivity.
Defined.



Lemma reported_time_differs_witness :
  exists resp s1,
    run (check_in (scan "uuid-1" "A101") (inject_Z 1700000005) dt0 "rec-1" dt1) sample_store =
      (Return resp, s1) /\
    exists log row,
      spreadsheet s1 !! "Attendance_Log" = Some log /\
      last log = Some row /\
      row !! 3%nat = Some (isoformat dt0) /\
      CheckInResponse.checkin_time resp = strftime dt1 /\
      row !! 3%nat <> Some (CheckInResponse.checkin_time resp).
Proof.
  eexists _, _. split; [vm_compute; reflexivity|].
  apply (reported_time_differs (scan "uuid-1" "A101") (inject_Z 1700000005) dt0 "rec-1" dt1
           sample_store).
  vm_compute. reflexivity.
Defined.

(** ** The further theorems on the sample stores *)


Lemma issued_token_is_redeemable_witness :
  exists resp1 s1 resp2 s2,
    run (generate_qr_token req_P001_A101 "uuid-7" (inject_Z 1700000000)) (sample [] [] []) =
      (Return resp1, s1) /\
    TokenResponse.qr_code_token resp1 = "uuid-7" /\
    run (check_in (scan "uuid-7" "A101") (inject_Z 1700000014) dt0 "rec-1" dt1) s1 =
      (Return resp2, s2) /\
    CheckInResponse.participant_id resp2 = PStr "P001" /\
    spreadsheet s2 !! "Qr_Tokens" = Some [QR_TOKENS_HEADERS] /\
    spreadsheet s2 !! "Attendance_Log" =
      Some [ATTENDANCE_LOG_HEADERS;
            cell_of <$> log_data_of (scan "uuid-7" "A101") (PStr "P001") dt0 "rec-1"].
Proof.
  apply (issued_token_is_redeemable req_P001_A101 "uuid-7" (inject_Z 1700000000)
           (scan "uuid-7" "A101") (inject_Z 1700000014) dt0 "rec-1" dt1 (sample [] [] []) [] []).
  - split; reflexivity.
  - reflexivity.
  - reflexivity.
  - apply sample_known_participant.
  - eexists _, _, _, _, _. split; vm_compute; reflexivity.
  - reflexivity.
  - reflexivity.
  - reflexivity.
  - by intros ?%Exists_nil.
  - unfold Qle. simpl. lia.
  - unfold Qle. simpl. lia.
Defined.


Lemma scan_failure_admits_duplicate_witness :
  let row := ["rec-0"; "P001"; "A101"; "2026-01-10T01:00:00+00:00"; "QR_CODE"; "scanner1"; "TRUE"] in
  let self := sample [sample_token] [row] [false; false; false; false; false; true] in
  Exists (pair_is "P001" "A101") [row] /\
  exists r s2,
    run (check_in (scan "uuid-1" "A101") (inject_Z 1700000005) dt0 "rec-1" dt1) self = (r, s2) /\
    r <> Raise DuplicateCheckIn /\
    spreadsheet s2 !! "Attendance_Log" =
      Some ([ATTENDANCE_LOG_HEADERS; row] ++
            [cell_of <$> log_data_of (scan "uuid-1" "A101") (PStr "P001") dt0 "rec-1"]).
Proof.
  intros row self. split; [left; split; reflexivity|].
  apply (scan_failure_admits_duplicate (scan "uuid-1" "A101") (inject_Z 1700000005) dt0
           "rec-1" dt1 self (token_data_of sample_token 1700000015)
           (sample [] [row] [true]) 1700000015 [ATTENDANCE_LOG_HEADERS; row] 0%nat).
  - vm_compute. reflexivity.
  - reflexivity.
  - reflexivity.
  - reflexivity.
  - reflexivity.
  - lia.
  - reflexivity.
Defined.

Lemma unknown_participant_is_recorded_witness :
  let self := sample [token_row "uuid-9" "P999" "A101" "deviceA" 1700000015] [] [] in
  exists s1,
    run (check_in (scan "uuid-9" "A101") (inject_Z 1700000005) dt0 "rec-1" dt1) self =
      (Raise AttributeError, s1) /\
    spreadsheet s1 !! "Attendance_Log" =
      Some (ATTENDANCE_LOG_HEADERS :: [] ++
            [cell_of <$> log_data_of (scan "uuid-9" "A101") (PStr "P999") dt0 "rec-1"]) /\
    spreadsheet s1 !! "Qr_Tokens" =
      Some (QR_TOKENS_HEADERS ::
            delete 0%nat [token_row "uuid-9" "P999" "A101" "deviceA" 1700000015]).
Proof.
  intros self.
  apply (unknown_participant_is_recorded (scan "uuid-9" "A101") (inject_Z 1700000005) dt0
           "rec-1" dt1 self [token_row "uuid-9" "P999" "A101" "deviceA" 1700000015] []
           0%nat "uuid-9" "P999" "A101" "deviceA" 1700000015).
  - split; reflexivity.
  - reflexivity.
  - reflexivity.
  - discriminate.
  - reflexivity.
  - reflexivity.
  - reflexivity.
  - by intros ?%Exists_nil.
  - intros rows Hrows. vm_compute in Hrows. injection Hrows as <-. vm_compute. reflexivity.
Defined.



Lemma header_text_passes_as_id_witness :
  let request :=
    {| TokenRequest.participant_id := "id"; TokenRequest.agenda_item_id := "id";
       TokenRequest.device_id := "deviceA" |} in
  exists resp s1,
    run (generate_qr_token request "uuid-7" (inject_Z 1700000000)) sample_store =
      (Return resp, s1) /\
    TokenResponse.qr_code_token resp = "uuid-7" /\
    spreadsheet s1 !! "Qr_Tokens" =
      Some ([QR_TOKENS_HEADERS; sample_token] ++
            [token_row "uuid-7" "id" "id" "deviceA"
               (int_of_float (inject_Z 1700000000 + inject_Z QR_CODE_EXP_SECONDS))]).
Proof.
  intros request.
  eapply (header_text_passes_as_id request "uuid-7" (inject_Z 1700000000) sample_store).
  - split; reflexivity.
  - reflexivity.
  - reflexivity.
  - reflexivity.
  - reflexivity.
  - reflexivity.
Defined.



Lemma signup_writes_one_row_or_nothing_witness :
  let registered :=
    {| ParticipantSignupRequest.name := "Wang"; ParticipantSignupRequest.email := "ming@test.com";
       ParticipantSignupRequest.phone_number := "0999"; ParticipantSignupRequest.organization := None;
       ParticipantSignupRequest.password := "secret1" |} in
  (exists rows,
     spreadsheet (sample_accounts []) !! "Participants" = Some rows /\
     spreadsheet (snd (run (participant_signup_route sample_signup "hash:secret1" sample_str_e)
                         (sample_accounts []))) =
       <["Participants" := rows ++ [signup_row sample_signup "P003" "hash:secret1"]]>
         (spreadsheet (sample_accounts []))) /\
  spreadsheet (snd (run (participant_signup_route registered "hash:secret1" sample_str_e)
                      (sample_accounts []))) =
    spreadsheet (sample_accounts []).
Proof.
  intros registered. split.
  - apply (signup_writes_one_row_or_nothing sample_signup "hash:secret1" sample_str_e
             (sample_accounts []) (Return (signup_answer "P003"))).
    vm_compute. reflexivity.
  - apply (signup_writes_one_row_or_nothing registered "hash:secret1" sample_str_e
             (sample_accounts []) (Raise EmailRegistered)).
    vm_compute. reflexivity.
Defined.








Lemma routes_unavailable_when_not_connected_witness :
  let self := {| is_connected := false; spreadsheet := sample_sheets [sample_token] [];
                 faults := [] |} in
  run (check_in_route (scan "uuid-1" "A101") (inject_Z 1700000005) dt0 "rec-1" dt1) self =
    (Raise ServiceUnavailable, self) /\
  run (participant_signup_route sample_signup "hash:secret1" sample_str_e) self =
    (Raise ServiceUnavailable, self).
Proof.
  intros self.
  destruct (routes_unavailable_when_not_connected self eq_refl)
    as (_ & Hcheck_in & Hsignup & _).
  split; [apply Hcheck_in|apply Hsignup].
Defined.


Lemma initialization_with_clear_starts_over_witness :
  exists s1,
    initialize_db_route (sample_initialization true) "hash:test1234" "2026-01-01 08:00:00"
      "2026-01-01" "2026-01-01" sample_str_e (sample [sample_token] [["rec-0"]] []) =
      (Return initialization_answer, s1) /\
    (forall title headers, (title, headers) ∈ WORKSHEET_DEFINITIONS ->
       spreadsheet s1 !! title =
         Some (headers ::
               seed_rows "hash:test1234" "2026-01-01 08:00:00" "2026-01-01" "2026-01-01" title)) /\
    spreadsheet s1 !! "Attendance_Log" = Some [ATTENDANCE_LOG_HEADERS] /\
    spreadsheet s1 !! "Qr_Tokens" = Some [QR_TOKENS_HEADERS].
Proof.
  apply (initialization_with_clear_starts_over (sample_initialization true) "hash:test1234"
           "2026-01-01 08:00:00" "2026-01-01" "2026-01-01" sample_str_e
           (sample [sample_token] [["rec-0"]] [])).
  - split; reflexivity.
  - reflexivity.
  - reflexivity.
Defined.

Lemma initialization_adds_seed_rows_again_witness :
  let once :=
    snd (initialize_db_route (sample_initialization true) "hash:test1234"
           "2026-01-01 08:00:00" "2026-01-01" "2026-01-01" sample_str_e (sample [] [] [])) in
  exists s1,
    initialize_db_route (sample_initialization false) "hash:test1234" "2026-01-02 08:00:00"
      "2026-01-02" "2026-01-02" sample_str_e once = (Return initialization_answer, s1) /\
    spreadsheet s1 !! "Participants" =
      Some (PARTICIPANTS_HEADERS ::
            participant_data "hash:test1234" ++ participant_data "hash:test1234").
Proof.
  intros once.
  destruct (initialization_adds_seed_rows_again (sample_initialization false) "hash:test1234"
              "2026-01-02 08:00:00" "2026-01-02" "2026-01-02" sample_str_e once)
    as (s1 & Hrun & Hrows).
  - split; reflexivity.
  - reflexivity.
  - reflexivity.
  - exists s1. split; [exact Hrun|].
    apply (Hrows "Participants" PARTICIPANTS_HEADERS (participant_data "hash:test1234")).
    + by apply (list_elem_of_lookup_2 WORKSHEET_DEFINITIONS 1%nat).
    + vm_compute. reflexivity.
Defined.

Lemma initialized_system_serves_check_in_witness :
  exists s0 resp1 s1 resp2 s2,
    initialize_db_route (sample_initialization true) "hash:test1234" "2026-01-01 08:00:00"
      "2026-01-01" "2026-01-01" sample_str_e (sample [] [] []) =
      (Return initialization_answer, s0) /\
    run (generate_qr_token_route req_P001_A101 "uuid-7" (inject_Z 1700000000)) s0 =
      (Return resp1, s1) /\
    TokenResponse.qr_code_token resp1 = "uuid-7" /\
    run (check_in_route (scan "uuid-7" "A101") (inject_Z 1700000010) dt0 "rec-1" dt1) s1 =
      (Return resp2, s2) /\
    CheckInResponse.participant_name resp2 = PStr "王小明" /\
    CheckInResponse.participant_id resp2 = PStr "P001" /\
    spreadsheet s2 !! "Attendance_Log" =
      Some [ATTENDANCE_LOG_HEADERS;
            cell_of <$> log_data_of (scan "uuid-7" "A101") (PStr "P001") dt0 "rec-1"].
Proof.
  apply (initialized_system_serves_check_in (sample_initialization true) "hash:test1234"
           "2026-01-01 08:00:00" "2026-01-01" "2026-01-01" sample_str_e
           req_P001_A101 "uuid-7" (inject_Z 1700000000) (scan "uuid-7" "A101")
           (inject_Z 1700000010) dt0 "rec-1" dt1 (sample [] [] [])).
  - split; reflexivity.
  - reflexivity.
  - reflexivity.
  - reflexivity.
  - reflexivity.
  - discriminate.
  - reflexivity.
  - reflexivity.
  - unfold Qle. simpl. lia.
  - unfold Qle. simpl. lia.
Defined.

Lemma initialize_db_answers_witness :
  let wrong :=
    {| InitializationRequest.secret_key := "guess"; InitializationRequest.clear_data := true |} in
  let self := sample [sample_token] [] [] in
  exists e,
    initialize_db_route wrong "hash:test1234" "2026-01-01 08:00:00" "2026-01-01" "2026-01-01"
      sample_str_e self = (Raise e, self) /\
    ((e = ServiceUnavailable /\ self = self) \/
     (e = WrongInitKey /\ self = self /\ InitializationRequest.secret_key wrong <> INIT_MASTER_KEY) \/
     exists e0, e = InitializationFailed (sample_str_e e0)).
Proof.
  intros wrong self. exists WrongInitKey. split; [vm_compute; reflexivity|].
  apply (initialize_db_answers wrong "hash:test1234" "2026-01-01 08:00:00" "2026-01-01"
           "2026-01-01" sample_str_e self (Raise WrongInitKey) self).
  vm_compute. reflexivity.
Defined.

Lemma failed_initialization_keeps_the_clearing_witness :
  exists s1,
    initialize_db_route (sample_initialization true) "hash:test1234" "2026-01-01 08:00:00"
      "2026-01-01" "2026-01-01" sample_str_e (sample_accounts [false; false; true]) =
      (Raise (InitializationFailed (sample_str_e APIError)), s1) /\
    spreadsheet s1 = <["Admins" := []]> (spreadsheet (sample_accounts [false; false; true])).
Proof.
  apply (failed_initialization_keeps_the_clearing (sample_initialization true) "hash:test1234"
           "2026-01-01 08:00:00" "2026-01-01" "2026-01-01" sample_str_e
           (sample_accounts [false; false; true])
           [ADMINS_HEADERS; admin_row "1" "admin" "hash:test1234" "SUPER_ADMIN" ""] []);
    reflexivity.
Defined.
